(** * Whales Market Monitor: the normalisation and change-detection engine

    A shallow embedding of [whales_monitor.py] (class [WhalesMarketMonitor])
    and the properties of its price parser, order normaliser, best-order
    selector, snapshot differ and polling cycle.

    Python values are modelled as follows.
    - [str] is a list of Unicode code points ([pystr]); indexing and the
      regular expression of [parse_special_price] work on code points.
    - [float] is IEEE 754 binary64, given by [spec_float] with precision 53
      and maximal exponent 1024; arithmetic and comparisons are those of
      [SpecFloat].
    - a JSON document as decoded by [response.json()] is a [pyval].
    - exceptions are values of [exn]; a computation that may raise returns a
      [result]. *)

From Stdlib Require Import ZArith List Bool Ascii String Lia.
From Stdlib Require Import PrimFloat FloatOps SpecFloat.
From stdpp Require Import base option list countable gmap.

Set Warnings "-inexact-float".

Set Default Proof Using "Type".
Local Open Scope Z_scope.

(** ** Strings *)

Abbreviation pystr := (list Z).

(** Source literals are written as UTF-8 text and decoded to code points. *)
Fixpoint utf8_decode (bs : list Z) : pystr :=
  match bs with
  | [] => []
  | b0 :: r0 =>
    if b0 <? 0x80 then b0 :: utf8_decode r0
    else
      match r0 with
      | [] => [b0]
      | b1 :: r1 =>
        if b0 <? 0xE0 then
          Z.lor (Z.shiftl (Z.land b0 0x1F) 6) (Z.land b1 0x3F) :: utf8_decode r1
        else
          match r1 with
          | [] => [b0; b1]
          | b2 :: r2 =>
            if b0 <? 0xF0 then
              Z.lor (Z.shiftl (Z.land b0 0x0F) 12)
                (Z.lor (Z.shiftl (Z.land b1 0x3F) 6) (Z.land b2 0x3F))
                :: utf8_decode r2
            else
              match r2 with
              | [] => [b0; b1; b2]
              | b3 :: r3 =>
                Z.lor (Z.shiftl (Z.land b0 0x07) 18)
                  (Z.lor (Z.shiftl (Z.land b1 0x3F) 12)
                     (Z.lor (Z.shiftl (Z.land b2 0x3F) 6) (Z.land b3 0x3F)))
                  :: utf8_decode r3
              end
          end
      end
  end.

Definition utf8 (s : string) : pystr :=
  utf8_decode (map (fun a => Z.of_N (N_of_ascii a)) (list_ascii_of_string s)).
Arguments utf8 s%_string.

(** [sep.join(parts)] *)
Fixpoint py_join (sep : pystr) (parts : list pystr) : pystr :=
  match parts with
  | [] => []
  | [p] => p
  | p :: rest => p ++ sep ++ py_join sep rest
  end.

(** Decimal digits of a non-negative integer, as [str(n)] prints them. *)
Fixpoint uint_codepoints (u : Decimal.uint) : pystr :=
  match u with
  | Decimal.Nil => []
  | Decimal.D0 u => 48 :: uint_codepoints u
  | Decimal.D1 u => 49 :: uint_codepoints u
  | Decimal.D2 u => 50 :: uint_codepoints u
  | Decimal.D3 u => 51 :: uint_codepoints u
  | Decimal.D4 u => 52 :: uint_codepoints u
  | Decimal.D5 u => 53 :: uint_codepoints u
  | Decimal.D6 u => 54 :: uint_codepoints u
  | Decimal.D7 u => 55 :: uint_codepoints u
  | Decimal.D8 u => 56 :: uint_codepoints u
  | Decimal.D9 u => 57 :: uint_codepoints u
  end.

Definition str_of_Z (n : Z) : pystr :=
  match n with
  | Z0 => [48]
  | Zpos p => uint_codepoints (Pos.to_uint p)
  | Zneg p => 45 :: uint_codepoints (Pos.to_uint p)
  end.

(** ** Floats *)

Abbreviation pyfloat := spec_float.

Definition prec : Z := 53.
Definition emax : Z := 1024.

Definition fzero : pyfloat := S754_zero false.
Definition fone : pyfloat := S754_finite false 4503599627370496 (-52).

Definition fdiv (a b : pyfloat) : pyfloat := SFdiv prec emax a b.
Definition fmul (a b : pyfloat) : pyfloat := SFmul prec emax a b.
(** [a > b], [a == b] and [a != b] on floats; every comparison with a NaN
    is false except [!=]. *)
Definition fgt (a b : pyfloat) : bool := SFltb b a.
Definition feq (a b : pyfloat) : bool := SFeqb a b.
Definition fne (a b : pyfloat) : bool := negb (SFeqb a b).
Definition fle (a b : pyfloat) : bool := SFleb a b.

Definition is_nan (x : pyfloat) : bool :=
  match x with S754_nan => true | _ => false end.

(** The binary64 value nearest to the integer [z] (ties to even); an
    infinity when [z] is beyond the range. *)
Definition float_of_Z (z : Z) : pyfloat := binary_normalize prec emax z 0 false.

(** The binary64 value nearest to [(-1)^neg * m * 10^e] for [0 <= m], as the
    correctly rounded string-to-float conversion computes it. *)
Definition decimal_float (neg : bool) (m e : Z) : pyfloat :=
  match m with
  | Z0 => S754_zero neg
  | Zpos p =>
    if 0 <=? e then binary_round prec emax neg (p * Z.to_pos (10 ^ e)) 0
    else SFdiv prec emax (S754_finite neg p 0)
                         (S754_finite false (Z.to_pos (10 ^ (- e))) 0)
  | Zneg _ => S754_nan
  end.

(** ** Python values, exceptions *)

#[warnings="-register-all"]
Inductive pyval :=
  | PNone
  | PBool (b : bool)
  | PInt (z : Z)
  | PFloat (f : pyfloat)
  | PStr (s : pystr)
  | PList (l : list pyval)
  | PDict (d : list (pystr * pyval)).

Inductive exn :=
  | OverflowError | ValueError | TypeError | AttributeError | KeyError | OSError.

Inductive result (A : Type) :=
  | Ok (a : A)
  | Raise (e : exn).
Arguments Ok {A} a.
Arguments Raise {A} e.

Global Instance result_ret : MRet result := fun _ a => Ok a.
Global Instance result_bind : MBind result := fun _ _ f m =>
  match m with Ok a => f a | Raise e => Raise e end.

Definition is_Some_b {A} (o : option A) : bool :=
  match o with Some _ => true | None => false end.

(** [try: ... except: return default] *)
Definition catch {A} (m : result A) (default : A) : A :=
  match m with Ok a => a | Raise _ => default end.

(** A [dict] keeps its items in insertion order with distinct keys; lookup
    takes the first item with the key. *)
Fixpoint assoc_get {V} (k : pystr) (d : list (pystr * V)) : option V :=
  match d with
  | [] => None
  | (k', v) :: rest => if decide (k = k') then Some v else assoc_get k rest
  end.

(** [obj.get(key, default)]: only a dict has the method. *)
Definition py_get (obj : pyval) (key : pystr) (dflt : pyval) : result pyval :=
  match obj with
  | PDict d => Ok (default dflt (assoc_get key d))
  | _ => Raise AttributeError
  end.

(** ** The interpreter's Unicode database

    [float()] and the regular-expression class [\d] consult the Unicode
    character database of the interpreter for code points beyond ASCII.  The
    database belongs to the interpreter, not to the program, so it is a
    parameter of the model. *)

Class UnicodeData := {
  (** [Py_UNICODE_TODECIMAL]: the value of a decimal digit (category Nd). *)
  uni_todecimal : Z -> option Z;
  (** [Py_UNICODE_ISSPACE] *)
  uni_isspace : Z -> bool;
  uni_todecimal_range : forall c d, uni_todecimal c = Some d -> 0 <= d <= 9
}.

(** A database with no decimal digit and no space beyond ASCII. *)
#[program]
Definition ascii_only : UnicodeData :=
  {| uni_todecimal := fun _ => None; uni_isspace := fun _ => false |}.
Next Obligation. discriminate. Qed.

Definition digit_block (start c : Z) : option Z :=
  if (start <=? c) && (c <=? start + 9) then Some (c - start) else None.

(** A database holding the Unicode white space beyond ASCII and the digits
    of four scripts: Arabic-Indic, Extended Arabic-Indic, Devanagari and
    fullwidth. *)
#[program]
Definition unicode_sample : UnicodeData :=
  {| uni_todecimal := fun c =>
       digit_block 0x660 c ∪ digit_block 0x6F0 c ∪ digit_block 0x966 c
         ∪ digit_block 0xFF10 c;
     uni_isspace := fun c =>
       bool_decide (c ∈ [0x85; 0xA0; 0x1680; 0x2028; 0x2029; 0x202F; 0x205F; 0x3000])
       || ((0x2000 <=? c) && (c <=? 0x200A)) |}.
Next Obligation.
  intros c d. unfold digit_block, union, option_union, union_with, option_union_with.
  repeat case_match; intros; simplify_eq; lia.
Qed.

Section Parser.
Context {ucd : UnicodeData}.

Definition is_ascii_digit (c : Z) : bool := (48 <=? c) && (c <=? 57).

(** The class [\d] of a [str] pattern: a Unicode decimal digit. *)
Definition is_decimal (c : Z) : bool :=
  if c <? 128 then is_ascii_digit c
  else match uni_todecimal c with Some _ => true | None => false end.

(** [Py_ISSPACE]: the ASCII white space. *)
Definition py_isspace (c : Z) : bool := (c =? 32) || ((9 <=? c) && (c <=? 13)).

Definition digits_val (ds : pystr) : Z :=
  fold_left (fun acc c => 10 * acc + (c - 48)) ds 0.

(** The longest prefix of [s] whose characters satisfy [p], and the rest. *)
Fixpoint span (p : Z -> bool) (s : pystr) : pystr * pystr :=
  match s with
  | [] => ([], [])
  | c :: r => if p c then let '(a, b) := span p r in (c :: a, b) else ([], s)
  end.

(** *** [float(s)] for a string

    The steps of [PyFloat_FromString]: non-ASCII spaces and decimal digits
    are replaced by their ASCII counterparts, underscores between digits are
    removed, surrounding white space is stripped and the rest must be a
    decimal floating-point literal, an infinity or a NaN. *)

Definition to_ascii_char (c : Z) : option Z :=
  if c <? 127 then Some c
  else if uni_isspace c then Some 32
  else d ← uni_todecimal c; Some (48 + d).

Definition transform_decimal_and_space (s : pystr) : option pystr :=
  mapM to_ascii_char s.

Fixpoint strip_underscores (prev : Z) (s : pystr) : option pystr :=
  match s with
  | [] => if prev =? 95 then None else Some []
  | c :: r =>
    if c =? 95 then
      if is_ascii_digit prev then strip_underscores c r else None
    else if (prev =? 95) && negb (is_ascii_digit c) then None
    else cons c <$> strip_underscores c r
  end.

Fixpoint lstrip (s : pystr) : pystr :=
  match s with
  | [] => []
  | c :: r => if py_isspace c then lstrip r else s
  end.

Definition rstrip (s : pystr) : pystr := reverse (lstrip (reverse s)).

Definition take_sign (s : pystr) : bool * pystr :=
  match s with
  | [] => (false, [])
  | c :: r => if c =? 45 then (true, r) else if c =? 43 then (false, r) else (false, s)
  end.

Definition to_lower (c : Z) : Z := if (65 <=? c) && (c <=? 90) then c + 32 else c.

Definition parse_inf_or_nan (s : pystr) : option pyfloat :=
  let l := map to_lower s in
  if bool_decide (l = utf8 "inf") || bool_decide (l = utf8 "infinity")
  then Some (S754_infinity false)
  else if bool_decide (l = utf8 "nan") then Some S754_nan
  else None.

Definition parse_exponent (s : pystr) : option Z :=
  match s with
  | [] => Some 0
  | c :: r =>
    if (c =? 101) || (c =? 69) then
      let '(neg, r') := take_sign r in
      let '(ds, rest) := span is_ascii_digit r' in
      match ds, rest with
      | _ :: _, [] => Some (if neg then - digits_val ds else digits_val ds)
      | _, _ => None
      end
    else None
  end.

Definition parse_float_ascii (s : pystr) : option pyfloat :=
  let '(neg, r) := take_sign s in
  match parse_inf_or_nan r with
  | Some f => Some (if neg then SFopp f else f)
  | None =>
    let '(ip, r1) := span is_ascii_digit r in
    let '(fp, r2) :=
      match r1 with
      | c :: t => if c =? 46 then span is_ascii_digit t else ([], r1)
      | [] => ([], [])
      end in
    match ip ++ fp with
    | [] => None
    | ds =>
      e ← parse_exponent r2;
      Some (decimal_float neg (digits_val ds) (e - Z.of_nat (length fp)))
    end
  end.

Definition py_float_of_str (s : pystr) : option pyfloat :=
  a ← transform_decimal_and_space s;
  u ← (if bool_decide (95 ∈ a) then strip_underscores 0 a else Some a);
  match rstrip (lstrip u) with
  | [] => None
  | t => parse_float_ascii t
  end.

(** [float(n)] for an [int]: correctly rounded, [OverflowError] beyond the
    range of binary64. *)
Definition float_of_int (z : Z) : result pyfloat :=
  match float_of_Z z with
  | S754_infinity _ => Raise OverflowError
  | f => Ok f
  end.

(** The builtin [float(v)]. *)
Definition py_float (v : pyval) : result pyfloat :=
  match v with
  | PFloat f => Ok f
  | PInt z => float_of_int z
  | PBool b => Ok (if b then fone else fzero)
  | PStr s =>
    match py_float_of_str s with
    | Some f => Ok f
    | None => Raise ValueError
    end
  | PNone | PList _ | PDict _ => Raise TypeError
  end.

End Parser.

(** An entry of [TOKENS]: a dict that may hold ['chain'] and ['emoji']. *)
Record TokenConfig := {
  chain : option pyval;
  emoji : option pystr
}.

(** [self.tokens]: the items of the dict, in insertion order. *)
Abbreviation Tokens := (list (pystr * TokenConfig)).

(** ** [parse_special_price] *)

Section Monitor.
Context {ucd : UnicodeData}.

Definition subscript_map : list (pystr * pystr) :=
  [ (utf8 "₀", utf8 "0"); (utf8 "₁", utf8 "1"); (utf8 "₂", utf8 "2");
    (utf8 "₃", utf8 "3"); (utf8 "₄", utf8 "4"); (utf8 "₅", utf8 "5");
    (utf8 "₆", utf8 "6"); (utf8 "₇", utf8 "7"); (utf8 "₈", utf8 "8");
    (utf8 "₉", utf8 "9") ].

(** The character class [[₀₁₂₃₄₅₆₇₈₉]] *)
Definition is_subscript_digit (c : Z) : bool :=
  bool_decide (c ∈ utf8 "₀₁₂₃₄₅₆₇₈₉").

(** [re.match(r'0\.0[₀₁₂₃₄₅₆₇₈₉](\d+)', s)]: the match is anchored at the
    start of [s] only; the result is group 1, the longest run of decimal
    digits after the subscript. *)
Definition match_price_pattern (s : pystr) : option pystr :=
  match s with
  | c0 :: c1 :: c2 :: c3 :: rest =>
    if (c0 =? 48) && (c1 =? 46) && (c2 =? 48) && is_subscript_digit c3 then
      match fst (span is_decimal rest) with
      | [] => None
      | ds => Some ds
      end
    else None
  | _ => None
  end.

(** [int(s)] for a string of ASCII decimal digits, the only strings the
    subscript map holds. *)
Definition py_int_digits (s : pystr) : result Z :=
  match s with
  | [] => Raise ValueError
  | _ => if forallb is_ascii_digit s then Ok (digits_val s) else Raise ValueError
  end.

Definition parse_special_price (price_str : pyval) : result pyfloat :=
  match price_str with
  | PBool _ | PInt _ | PFloat _ => py_float price_str
  | PStr s =>
    match match_price_pattern s with
    | Some remaining_digits =>
      let subscript_char := take 1 (drop 3 s) in
      zeros_count ← py_int_digits
                      (default (utf8 "0") (assoc_get subscript_char subscript_map));
      let decimal_str :=
        utf8 "0." ++ replicate (Z.to_nat zeros_count) 48 ++ remaining_digits in
      Ok (catch (py_float (PStr decimal_str)) fzero)
    | None => Ok (catch (py_float (PStr s)) fzero)
    end
  | PNone | PList _ | PDict _ => Ok fzero
  end.

(** ** Orders *)

Record Order := {
  order_id : pyval;
  side : pystr;
  price : pyfloat;
  amount : pyfloat;
  collateral : pyfloat;
  token : pystr
}.

(** The [amount] of the source is the integer [0] when the price is not
    positive; it is modelled by the float [0.0], which the comparisons and
    the formatting of the program do not tell apart from it. *)
Definition parse_order (order : pyval) (side token : pystr) : option Order :=
  let constructed :=
    raw_price ← py_get order (utf8 "price") (PStr (utf8 "0"));
    price ← parse_special_price raw_price;
    raw_collateral ← py_get order (utf8 "collateral") (PInt 0);
    collateral ← py_float raw_collateral;
    let amount := if fgt price fzero then fdiv collateral price else fzero in
    id ← py_get order (utf8 "id") PNone;
    Ok {| order_id := id; side := side; price := price; amount := amount;
          collateral := collateral; token := token |} in
  match constructed with
  | Ok o => Some o
  | Raise _ => None
  end.

(** [o and o['price'] > 0 and o['amount'] > 0]: [None] is falsy, an order
    (a dict of six items) is truthy. *)
Definition is_valid (o : option Order) : bool :=
  match o with
  | Some o => fgt (price o) fzero && fgt (amount o) fzero
  | None => false
  end.

(** [[o for o in orders if o and o['price'] > 0 and o['amount'] > 0]] *)
Definition valid_orders (orders : list (option Order)) : list Order :=
  omap (fun o => if is_valid o then o else None) orders.

(** [max(l, key=key)] on a non-empty list: the running maximum is replaced
    only by an element whose key is strictly greater. *)
Definition py_max {A} (key : A -> pyfloat) (first : A) (rest : list A) : A :=
  fold_left (fun best x => if fgt (key x) (key best) then x else best) rest first.

Definition BUY : pystr := utf8 "BUY".
Definition SELL : pystr := utf8 "SELL".

Definition get_best_order (orders : list (option Order)) (side : pystr)
  : option Order :=
  match orders with
  | [] => None
  | _ =>
    match valid_orders orders with
    | [] => None
    | o :: valid =>
      if bool_decide (side = BUY) then Some (py_max price o valid)
      else Some (py_max collateral o valid)
    end
  end.

(** An order is truthy and [None] is falsy, so the two tests on
    [not current_order] and [not previous_order] are the first two cases. *)
Definition has_order_changed (current_order previous_order : option Order) : bool :=
  match current_order, previous_order with
  | None, None => false
  | None, Some _ | Some _, None => true
  | Some c, Some p =>
    fne (price c) (price p) || fne (amount c) (amount p)
      || fne (collateral c) (collateral p)
  end.

(** ** Formatting *)

(** [n / d] rounded to the nearest integer, ties to even. *)
Definition div_round_half_even (n d : Z) : Z :=
  let q := n / d in
  match 2 * (n mod d) ?= d with
  | Lt => q
  | Gt => q + 1
  | Eq => if Z.even q then q else q + 1
  end.

(** [m * 2^e * 10^p] rounded to the nearest integer, ties to even. *)
Definition scaled_round (m : positive) (e : Z) (p : nat) : Z :=
  if 0 <=? e then Z.pos m * 2 ^ e * 10 ^ Z.of_nat p
  else div_round_half_even (Z.pos m * 10 ^ Z.of_nat p) (2 ^ (- e)).

(** Thousands separators, on the digits in reverse order. *)
Fixpoint group_thousands (rev_digits : pystr) : pystr :=
  match rev_digits with
  | a :: b :: c :: ((_ :: _) as rest) => a :: b :: c :: 44 :: group_thousands rest
  | _ => rev_digits
  end.

(** The digits of the non-negative integer [n] with a decimal point before
    the last [p] of them. *)
Definition fixed_digits (p : nat) (comma : bool) (n : Z) : pystr :=
  let ds := str_of_Z n in
  let ds := replicate (S p - length ds) 48 ++ ds in
  let int_part := take (length ds - p) ds in
  let frac_part := drop (length ds - p) ds in
  (if comma then reverse (group_thousands (reverse int_part)) else int_part)
  ++ match p with O => [] | S _ => 46 :: frac_part end.

(** The format specifications [.6f] ([format_float 6 false]) and [,.0f]
    ([format_float 0 true]): correctly rounded fixed-point notation. *)
Definition format_float (p : nat) (comma : bool) (x : pyfloat) : pystr :=
  let sign (s : bool) := if s then [45] else [] in
  match x with
  | S754_nan => utf8 "nan"
  | S754_infinity s => sign s ++ utf8 "inf"
  | S754_zero s => sign s ++ fixed_digits p comma 0
  | S754_finite s m e => sign s ++ fixed_digits p comma (scaled_round m e p)
  end.

(** ** Configuration and the external services *)

Record FetchParams := {
  p_type : pystr;
  p_category_token : pystr;
  p_symbol : pystr;
  p_status : pystr;
  p_take : Z;
  p_page : Z;
  p_sort_price : pystr;
  p_chains : pyval;
  p_order_type : pystr
}.

(** What the network answers during one polling cycle.  [http_get] is
    [requests.get(...).json()], [None] when either raises; [telegram_post]
    tells whether [sendMessage] answered with status 200. *)
Record World := {
  http_get : FetchParams -> option pyval;
  telegram_post : pystr -> bool
}.

Definition fetch_orders (tokens : Tokens) (w : World) (token order_type : pystr)
  : result pyval :=
  match assoc_get token tokens ≫= chain with
  | None => Raise KeyError
  | Some chain_id =>
    let params :=
      {| p_type := order_type;
         p_category_token := utf8 "pre_market";
         p_symbol := token;
         p_status := utf8 "open";
         p_take := 10;
         p_page := 1;
         p_sort_price :=
           if bool_decide (order_type = utf8 "buy") then utf8 "DESC" else utf8 "ASC";
         p_chains := chain_id;
         p_order_type := utf8 "normal" |} in
    match http_get w params with
    | None => Ok (PList [])
    | Some data =>
      Ok (catch (d ← py_get data (utf8 "data") (PDict []);
                 py_get d (utf8 "list") (PList []))
                (PList []))
    end
  end.

(** [for o in v]: a list yields its elements, a string its characters and
    a dict its keys; the other JSON values are not iterable. *)
Definition py_iter (v : pyval) : result (list pyval) :=
  match v with
  | PList l => Ok l
  | PStr s => Ok (map (fun c => PStr [c]) s)
  | PDict d => Ok (map (fun kv => PStr kv.1) d)
  | PNone | PBool _ | PInt _ | PFloat _ => Raise TypeError
  end.

(** Lists and dicts cannot be members of a set. *)
Definition py_hashable (v : pyval) : bool :=
  match v with
  | PList _ | PDict _ => false
  | _ => true
  end.

(** ** Display and alert text *)

Inductive output :=
  | Print (text : pystr)
  | Telegram (message : pystr).

Record PairSnapshot := {
  buy : option Order;
  sell : option Order
}.

(** [snapshots.get(token, {}).get(key)] *)
Definition snapshot_get (snapshots : gmap pystr PairSnapshot) (token : pystr)
    (key : PairSnapshot -> option Order) : option Order :=
  snapshots !! token ≫= key.

Definition emoji_of (config : TokenConfig) : pystr := default [] (emoji config).

Definition display_orders (tokens : Tokens)
    (all_orders : gmap pystr PairSnapshot) (is_new : bool) : list output :=
  let title :=
    if is_new then utf8 "🚨 NEW ORDERS DETECTED 🚨"
    else utf8 "📊 CURRENT MARKET ORDERS" in
  [Print (10 :: title); Print (replicate 60 61)]
  ++ flat_map (fun '(token, config) =>
       let b := snapshot_get all_orders token buy in
       let s := snapshot_get all_orders token sell in
       if is_Some_b b || is_Some_b s then
         [Print (emoji_of config ++ utf8 " " ++ token)]
         ++ match b with
            | Some b =>
              [Print (utf8 "🟢 BUY: $" ++ format_float 6 false (price b)
                      ++ utf8 " | " ++ format_float 0 true (amount b)
                      ++ utf8 " tokens | $" ++ format_float 0 true (collateral b))]
            | None => []
            end
         ++ match s with
            | Some s =>
              [Print (utf8 "🔴 SELL: $" ++ format_float 6 false (price s)
                      ++ utf8 " | " ++ format_float 0 true (amount s)
                      ++ utf8 " tokens | $" ++ format_float 0 true (collateral s))]
            | None => []
            end
         ++ [Print (utf8 "━━━━━━━━━━━━━━━━━━━━")]
       else []) tokens.

(** The block of one changed order in the alert text. *)
Definition order_block (tokens : Tokens) (order : Order) : pystr :=
  let side_text := if bool_decide (side order = BUY) then utf8 "BUY" else utf8 "SELL" in
  let side_emoji := if bool_decide (side_text = utf8 "BUY") then utf8 "🟢" else utf8 "🔴" in
  let token_emoji := default [] (assoc_get (token order) tokens ≫= emoji) in
  token_emoji ++ utf8 " " ++ side_emoji ++ utf8 " <b>" ++ token order ++ utf8 " "
    ++ side_text ++ utf8 "</b>" ++ [10]
  ++ utf8 "💰 Price: $" ++ format_float 6 false (price order) ++ [10]
  ++ utf8 "📦 Amount: " ++ format_float 0 true (amount order) ++ utf8 " tokens" ++ [10]
  ++ utf8 "💵 Collateral: $" ++ format_float 0 true (collateral order) ++ [10]
  ++ utf8 "━━━━━━━━━━━━━━━━━━━━" ++ [10].

Definition message_header : pystr :=
  utf8 "🔄 <b>ORDER UPDATE DETECTED</b> 🔄" ++ [10; 10].

Definition create_changed_orders_message (tokens : Tokens)
    (changed_orders : list (option Order)) : option pystr :=
  match changed_orders with
  | [] => None
  | _ =>
    Some (fold_left (fun telegram_message order =>
                       match order with
                       | None => telegram_message
                       | Some order => telegram_message ++ order_block tokens order
                       end)
                    changed_orders message_header)
  end.

(** ** The polling cycle *)

Record MonitorState := {
  (** the set is only ever added to; the model keeps the ids in the order
      of their addition *)
  seen_order_ids : list pyval;
  previous_orders : gmap pystr PairSnapshot;
  initial_display_done : bool
}.

(** The monitor as [__init__] leaves it. *)
Definition initial_state : MonitorState :=
  {| seen_order_ids := []; previous_orders := ∅; initial_display_done := false |}.

(** The locals [all_orders] and [changed_orders] of one cycle. *)
Record Locals := {
  all_orders : gmap pystr PairSnapshot;
  changed_orders : list (option Order)
}.

(** Fetch, parse, filter and select for one side of one token. *)
Definition best_of_side (tokens : Tokens) (w : World)
    (token order_type side : pystr) : result (option Order) :=
  data ← fetch_orders tokens w token order_type;
  items ← py_iter data;
  let orders := map (fun o => parse_order o side token) items in
  let orders := map Some (valid_orders orders) in
  Ok (get_best_order orders side).

(** What one token adds to [changed_orders]. *)
Definition changed_sides (previous : gmap pystr PairSnapshot) (token : pystr)
    (best_buy best_sell : option Order) : list (option Order) :=
  (if has_order_changed best_buy (snapshot_get previous token buy)
   then [best_buy] else [])
  ++ (if has_order_changed best_sell (snapshot_get previous token sell)
      then [best_sell] else []).

(** [if best: self.seen_order_ids.add(best['id'])] *)
Definition seen_add (seen : list pyval) (best : option Order)
  : result (list pyval) :=
  match best with
  | None => Ok seen
  | Some o =>
    if py_hashable (order_id o) then Ok (seen ++ [order_id o])
    else Raise TypeError
  end.

(** One iteration of the loop over the tokens.  The set of seen ids is
    updated in place and keeps its additions when the iteration raises. *)
Definition process_token (tokens : Tokens) (w : World)
    (previous : gmap pystr PairSnapshot) (token : pystr)
    (locals : Locals) (seen : list pyval) : list pyval * result Locals :=
  match best_of_side tokens w token (utf8 "buy") BUY with
  | Raise e => (seen, Raise e)
  | Ok best_buy =>
    match best_of_side tokens w token (utf8 "sell") SELL with
    | Raise e => (seen, Raise e)
    | Ok best_sell =>
      let locals' :=
        {| all_orders :=
             <[token := {| buy := best_buy; sell := best_sell |}]> (all_orders locals);
           changed_orders :=
             changed_orders locals ++ changed_sides previous token best_buy best_sell |} in
      match seen_add seen best_buy with
      | Raise e => (seen, Raise e)
      | Ok seen1 =>
        match seen_add seen1 best_sell with
        | Raise e => (seen1, Raise e)
        | Ok seen2 => (seen2, Ok locals')
        end
      end
    end
  end.

Fixpoint poll_tokens (tokens : Tokens) (w : World)
    (previous : gmap pystr PairSnapshot) (keys : list pystr)
    (locals : Locals) (seen : list pyval) : list pyval * result Locals :=
  match keys with
  | [] => (seen, Ok locals)
  | token :: rest =>
    match process_token tokens w previous token locals seen with
    | (seen', Ok locals') => poll_tokens tokens w previous rest locals' seen'
    | (seen', Raise e) => (seen', Raise e)
    end
  end.

Definition monitoring_line : pystr :=
  10 :: utf8 "⏰ Monitoring for order changes...".

(** The alert part of a cycle: [if changed_orders: ...]. *)
Definition alert_outputs (tokens : Tokens) (w : World) (locals : Locals)
  : list output :=
  match changed_orders locals with
  | [] => []
  | _ =>
    display_orders tokens (all_orders locals) true
    ++ match create_changed_orders_message tokens (changed_orders locals) with
       | Some ((_ :: _) as telegram_message) =>
         Telegram telegram_message
         :: (if telegram_post w telegram_message
             then [Print (utf8 "✅ Alert sent to Telegram")] else [])
       | _ => []
       end
    ++ [Print monitoring_line]
  end.

Inductive cycle_result :=
  (** lines 192-230 ran to their end: the snapshots are replaced, the
      displays are printed and the alert, if any, is sent *)
  | Completed (st : MonitorState) (batch : list (option Order)) (out : list output)
  (** an exception left the loop over the tokens (lines 194-216), before the
      snapshots are replaced at line 218 *)
  | Aborted (st : MonitorState) (e : exn).

(** The polling cycle: the body of the [try] in [run] from line 192 to line
    230, that is, up to the [time.sleep(poll_interval)] of line 232, which
    [loop_pass] below adds. *)
Definition run_cycle (tokens : Tokens) (w : World) (st : MonitorState)
  : cycle_result :=
  match poll_tokens tokens w (previous_orders st) tokens.*1
          {| all_orders := ∅; changed_orders := [] |} (seen_order_ids st) with
  | (seen, Raise e) =>
    Aborted {| seen_order_ids := seen;
               previous_orders := previous_orders st;
               initial_display_done := initial_display_done st |} e
  | (seen, Ok locals) =>
    let first_display :=
      if initial_display_done st then []
      else display_orders tokens (all_orders locals) false
           ++ [Print monitoring_line] in
    Completed {| seen_order_ids := seen;
                 previous_orders := all_orders locals;
                 initial_display_done := true |}
              (changed_orders locals)
              (first_display ++ alert_outputs tokens w locals)
  end.

Definition state_after (r : cycle_result) : MonitorState :=
  match r with Completed st _ _ | Aborted st _ => st end.

Definition outputs_of (r : cycle_result) : list output :=
  match r with Completed _ _ out => out | Aborted _ _ => [] end.

Definition batch_of (r : cycle_result) : list (option Order) :=
  match r with Completed _ batch _ => batch | Aborted _ _ => [] end.

(** [time.sleep(secs)] for an [int]: the interpreter converts the seconds
    to nanoseconds in a signed 64-bit integer, which overflows beyond
    9223372036 seconds in either direction, then refuses a negative length,
    and then leaves the sleep to the operating system, which may refuse it
    in turn; [os_sleeps] tells whether it does not. *)
Definition time_sleep (secs : Z) (os_sleeps : bool) : result unit :=
  if bool_decide (-9223372036 <= secs <= 9223372036) then
    if bool_decide (secs < 0) then Raise ValueError
    else if os_sleeps then Ok tt else Raise OSError
  else Raise OverflowError.

Inductive pass_result :=
  (** the [try] ran to its end, the [time.sleep] of line 232 included *)
  | Slept (st : MonitorState) (batch : list (option Order)) (out : list output)
  (** an exception reached the handler of lines 236-238, which logs it and
      sleeps for ten seconds; [out] is what the pass had emitted by then *)
  | Handled (st : MonitorState) (out : list output) (e : exn).

(** One pass of the [while True] loop of [run] (lines 191-238), for an
    [int] as [poll_interval]: the polling cycle, then the sleep.  An
    exception of the sleep reaches the same handler as one of the cycle,
    but after the snapshots are replaced and the outputs emitted. *)
Definition loop_pass (tokens : Tokens) (poll_interval : Z) (w : World)
    (os_sleeps : bool) (st : MonitorState) : pass_result :=
  match run_cycle tokens w st with
  | Aborted st' e => Handled st' [] e
  | Completed st' batch out =>
    match time_sleep poll_interval os_sleeps with
    | Ok _ => Slept st' batch out
    | Raise e => Handled st' out e
    end
  end.

Definition pass_state (r : pass_result) : MonitorState :=
  match r with Slept st _ _ | Handled st _ _ => st end.

Definition pass_outputs (r : pass_result) : list output :=
  match r with Slept _ _ out | Handled _ out _ => out end.

(** [run], for as many passes as there are worlds: the start-up message,
    then the passes in sequence. *)
Definition startup_msg (tokens : Tokens) (poll_interval : Z) : pystr :=
  utf8 "🤖 <b>Whales Market Monitor Started</b>" ++ [10; 10]
  ++ utf8 "Monitoring " ++ py_join (utf8 ", ") tokens.*1
  ++ utf8 " tokens every " ++ str_of_Z poll_interval ++ utf8 " seconds...".

Fixpoint run_passes (tokens : Tokens) (poll_interval : Z)
    (ws : list (World * bool)) (st : MonitorState) : list pass_result :=
  match ws with
  | [] => []
  | (w, os_sleeps) :: ws' =>
    let r := loop_pass tokens poll_interval w os_sleeps st in
    r :: run_passes tokens poll_interval ws' (pass_state r)
  end.

Definition run (tokens : Tokens) (poll_interval : Z) (ws : list (World * bool))
  : list output :=
  Telegram (startup_msg tokens poll_interval)
  :: flat_map pass_outputs (run_passes tokens poll_interval ws initial_state).

End Monitor.

(** ** Notions used in the statements *)

(** The values that [parse_order] reads from the dict of a raw order. *)
Definition raw_price (d : list (pystr * pyval)) : pyval :=
  default (PStr (utf8 "0")) (assoc_get (utf8 "price") d).
Definition raw_collateral (d : list (pystr * pyval)) : pyval :=
  default (PInt 0) (assoc_get (utf8 "collateral") d).
Definition raw_id (d : list (pystr * pyval)) : pyval :=
  default PNone (assoc_get (utf8 "id") d).

Definition raises {A} (m : result A) : Prop := exists e, m = Raise e.

(** An [int] that [float()] converts without overflow. *)
Definition in_float_range (z : Z) : bool :=
  match float_of_Z z with S754_infinity _ => false | _ => true end.

Section CycleNotions.
Context {ucd : UnicodeData}.

(** The best orders that a cycle in world [w] selects for a token; [None]
    also stands for a side whose fetch or iteration raises, in which case
    the cycle does not complete. *)
Definition best_buy_of (tokens : Tokens) (w : World) (token : pystr) : option Order :=
  catch (best_of_side tokens w token (utf8 "buy") BUY) None.
Definition best_sell_of (tokens : Tokens) (w : World) (token : pystr) : option Order :=
  catch (best_of_side tokens w token (utf8 "sell") SELL) None.

Definition cycle_snapshot (tokens : Tokens) (w : World) (token : pystr)
  : PairSnapshot :=
  {| buy := best_buy_of tokens w token; sell := best_sell_of tokens w token |}.

(** The entry that a present best order makes in an alert batch. *)
Definition present (o : option Order) : list (option Order) :=
  match o with Some _ => [o] | None => [] end.

(** [block] occurs in [text]. *)
Definition infix_of (block text : pystr) : Prop :=
  exists before after, text = before ++ block ++ after.

(** The block of an alert for one order, written out: the label line (the
    emoji of the token, the mark of the side, the token and the side in
    bold), the price with six decimals, the amount and the collateral
    grouped by thousands and without decimals, and the rule. *)
Definition alert_block (token_emoji side_mark token side_text : pystr)
    (price amount collateral : pyfloat) : pystr :=
  token_emoji ++ utf8 " " ++ side_mark ++ utf8 " <b>" ++ token ++ utf8 " "
    ++ side_text ++ utf8 "</b>" ++ [10]
  ++ utf8 "💰 Price: $" ++ format_float 6 false price ++ [10]
  ++ utf8 "📦 Amount: " ++ format_float 0 true amount ++ utf8 " tokens" ++ [10]
  ++ utf8 "💵 Collateral: $" ++ format_float 0 true collateral ++ [10]
  ++ utf8 "━━━━━━━━━━━━━━━━━━━━" ++ [10].

(** The text that a batch contributes to the alert after the header: the
    blocks of its entries that are orders, in batch order. *)
Definition batch_blocks (tokens : Tokens) (batch : list (option Order)) : pystr :=
  flat_map (fun order => match order with
                         | Some order => order_block tokens order
                         | None => []
                         end) batch.

End CycleNotions.

(** ** A market of two tokens, for the concrete statements *)

Definition TEA : pystr := utf8 "TEA".
Definition ZKP : pystr := utf8 "ZKP".

Definition example_tokens : Tokens :=
  [ (TEA, {| chain := Some (PStr (utf8 "1")); emoji := Some (utf8 "🍵") |});
    (ZKP, {| chain := Some (PStr (utf8 "1")); emoji := Some (utf8 "🔐") |}) ].

Definition raw_order (id : Z) (price : pyval) (collateral : pyval) : pyval :=
  PDict [ (utf8 "id", PInt id); (utf8 "price", price);
          (utf8 "collateral", collateral) ].

Definition api_response (orders : list pyval) : pyval :=
  PDict [ (utf8 "data", PDict [ (utf8 "list", PList orders) ]) ].

(** A world whose market has the given buy orders and no sell order. *)
Definition market (tea_orders zkp_orders : list pyval) : World :=
  {| http_get := fun p =>
       Some (api_response
               (if bool_decide (p_type p = utf8 "buy") then
                  if bool_decide (p_symbol p = TEA) then tea_orders
                  else if bool_decide (p_symbol p = ZKP) then zkp_orders
                  else []
                else []));
     telegram_post := fun _ => true |}.

Definition market_a : World :=
  market [raw_order 1 (PStr (utf8 "1.0")) (PInt 100)]
         [raw_order 2 (PStr (utf8 "0.0₃78")) (PInt 50)].

(** Later: the collateral of the TEA order has grown, the ZKP order is gone. *)
Definition market_b : World :=
  market [raw_order 1 (PStr (utf8 "1.0")) (PInt 150)] [].

Definition tea_buy (collateral : pyfloat) : Order :=
  {| order_id := PInt 1; side := BUY; price := Prim2SF 1;
     amount := collateral; collateral := collateral; token := TEA |}.

Definition zkp_buy : Order :=
  {| order_id := PInt 2; side := BUY; price := Prim2SF 0.00078;
     amount := Prim2SF (50 / 0.00078); collateral := Prim2SF 50; token := ZKP |}.

Definition separator_line : pystr := utf8 "━━━━━━━━━━━━━━━━━━━━".

(** The alert that the first cycle in [market_a] sends. *)
Definition first_alert : pystr :=
  utf8 "🔄 <b>ORDER UPDATE DETECTED</b> 🔄" ++ [10; 10]
  ++ utf8 "🍵 🟢 <b>TEA BUY</b>" ++ [10]
  ++ utf8 "💰 Price: $1.000000" ++ [10]
  ++ utf8 "📦 Amount: 100 tokens" ++ [10]
  ++ utf8 "💵 Collateral: $100" ++ [10]
  ++ separator_line ++ [10]
  ++ utf8 "🔐 🟢 <b>ZKP BUY</b>" ++ [10]
  ++ utf8 "💰 Price: $0.000780" ++ [10]
  ++ utf8 "📦 Amount: 64,103 tokens" ++ [10]
  ++ utf8 "💵 Collateral: $50" ++ [10]
  ++ separator_line ++ [10].

Definition first_cycle : cycle_result :=
  @run_cycle ascii_only example_tokens market_a initial_state.

Definition second_cycle : cycle_result :=
  @run_cycle ascii_only example_tokens market_b (state_after first_cycle).

(** Two orders: the first has the higher price, the second the greater
    collateral. *)
Definition high_price : Order :=
  {| order_id := PInt 10; side := BUY; price := Prim2SF 2; amount := Prim2SF 5;
     collateral := Prim2SF 10; token := TEA |}.
Definition high_collateral : Order :=
  {| order_id := PInt 11; side := BUY; price := Prim2SF 1; amount := Prim2SF 20;
     collateral := Prim2SF 20; token := TEA |}.

(** ** Further notions and scenarios *)

Definition no_nan_fields (o : Order) : bool :=
  negb (is_nan (price o)) && negb (is_nan (amount o)) && negb (is_nan (collateral o)).

(** The query of [fetch_orders] for a token, an order type and a chain. *)
Definition fetch_params (tok order_type : pystr) (chain_id : pyval) : FetchParams :=
  {| p_type := order_type;
     p_category_token := utf8 "pre_market";
     p_symbol := tok;
     p_status := utf8 "open";
     p_take := 10;
     p_page := 1;
     p_sort_price :=
       if bool_decide (order_type = utf8 "buy") then utf8 "DESC" else utf8 "ASC";
     p_chains := chain_id;
     p_order_type := utf8 "normal" |}.

(** The market of [market_a] with the ZKP order gone. *)
Definition market_zkp_gone : World :=
  market [raw_order 1 (PStr (utf8 "1.0")) (PInt 100)] [].

(** A market with two TEA buy orders. *)
Definition market_two_bids : World :=
  market [ raw_order 1 (PStr (utf8 "1.0")) (PInt 100);
           raw_order 3 (PStr (utf8 "2.5")) (PInt 10) ] [].

Definition tea_high_bid : Order :=
  {| order_id := PInt 3; side := BUY; price := Prim2SF 2.5; amount := Prim2SF 4;
     collateral := Prim2SF 10; token := TEA |}.

(** A market that answers with [null] in place of the list. *)
Definition market_null : World :=
  {| http_get := fun _ =>
       Some (PDict [ (utf8 "data", PDict [ (utf8 "list", PNone) ]) ]);
     telegram_post := fun _ => true |}.

Definition steady_cycle : cycle_result :=
  @run_cycle ascii_only example_tokens market_a (state_after first_cycle).

Definition zkp_gone_cycle : cycle_result :=
  @run_cycle ascii_only example_tokens market_zkp_gone (state_after first_cycle).


Definition null_pass : pass_result :=
  @loop_pass ascii_only example_tokens 10 market_null true (state_after first_cycle).

(** * Properties *)

(** ** The order of floats

    [SFcompare] is a total preorder on the floats other than NaN; the
    lemmas below are the instances that the running maximum of [max]
    needs.  They hold by cases on the two or three floats. *)

Ltac float_cases :=
  unfold fgt, feq, fne, fle, SFltb, SFeqb, SFleb, SFcompare;
  repeat match goal with x : spec_float |- _ => destruct x as [[]|[]| |[] ? ?] end;
  simpl; try congruence;
  repeat match goal with
  | |- context [Pos.compare_cont Eq ?a ?b] =>
    change (Pos.compare_cont Eq a b) with (Pos.compare a b)
  end;
  repeat match goal with
  | |- context [Z.compare ?a ?b] => destruct (Z.compare_spec a b); simpl; try congruence
  | |- context [Pos.compare ?a ?b] => destruct (Pos.compare_spec a b); simpl; try congruence
  end; try lia.

Lemma SFltb_irrefl a : SFltb a a = false.
Proof. float_cases. Qed.

Lemma SFltb_chain a b c :
  SFltb a c = false -> SFltb a b = true -> SFltb b c = false.
Proof. float_cases. Qed.

Lemma SFltb_chain_ne a b c :
  SFltb a c = false -> SFltb a b = true -> SFeqb c b = false.
Proof. float_cases. Qed.

Lemma SFltb_chain_lt a b c :
  SFltb a c = false -> SFltb a b = true -> is_nan c = false -> SFltb c b = true.
Proof. float_cases. Qed.

Lemma SFltb_false_le a b :
  SFltb a b = false -> is_nan a = false -> is_nan b = false -> SFleb b a = true.
Proof. float_cases. Qed.

Lemma SFltb_not_nan a b : SFltb a b = true -> is_nan a = false /\ is_nan b = false.
Proof. float_cases; auto. Qed.

(** ** [max] with a key *)

Section PyMax.
Context {A : Type} (key : A -> pyfloat).

Lemma py_max_snoc first rest x :
  py_max key first (rest ++ [x]) =
  let best := py_max key first rest in
  if fgt (key x) (key best) then x else best.
Proof. unfold py_max. by rewrite fold_left_app. Qed.

(** The result is an element of the list; no element has a strictly greater
    key; no element before it has an equal key; and it is strictly greater
    than every element before it whose key is not a NaN. *)
Lemma py_max_spec first rest :
  exists earlier later,
    first :: rest = earlier ++ py_max key first rest :: later /\
    (forall o, o ∈ first :: rest -> fgt (key o) (key (py_max key first rest)) = false) /\
    (forall o, o ∈ earlier -> feq (key o) (key (py_max key first rest)) = false) /\
    (forall o, o ∈ earlier -> is_nan (key o) = false ->
               fgt (key (py_max key first rest)) (key o) = true).
Proof.
  induction rest as [|x rest IH] using rev_ind.
  - exists [], []. cbn. split; [done|]. split.
    + intros o Ho. apply list_elem_of_singleton in Ho as ->. apply SFltb_irrefl.
    + split; intros o Ho; by apply elem_of_nil in Ho.
  - destruct IH as (earlier & later & Heq & Hmax & Hne & Hlt).
    rewrite py_max_snoc. cbn zeta.
    set (best := py_max key first rest) in *.
    destruct (fgt (key x) (key best)) eqn:Hx.
    + exists (first :: rest), []. split; [by rewrite app_comm_cons|].
      split; [|split].
      * intros o Ho. rewrite app_comm_cons in Ho.
        apply elem_of_app in Ho as [Ho|Ho].
        -- unfold fgt in *. eapply SFltb_chain; [apply (Hmax o Ho)|done].
        -- apply list_elem_of_singleton in Ho as ->. apply SFltb_irrefl.
      * intros o Ho. unfold fgt, feq in *.
        eapply SFltb_chain_ne; [apply (Hmax o Ho)|done].
      * intros o Ho Hnan. unfold fgt in *.
        eapply SFltb_chain_lt; [apply (Hmax o Ho)|done|done].
    + exists earlier, (later ++ [x]). split.
      { rewrite app_comm_cons, Heq. by rewrite <- app_assoc. }
      split; [|by split].
      intros o Ho. rewrite app_comm_cons in Ho.
      apply elem_of_app in Ho as [Ho|Ho]; [by apply Hmax|].
      by apply list_elem_of_singleton in Ho as ->.
Qed.

End PyMax.

(** ** The selector and the differ *)

Section Selection.

Lemma valid_orders_elem (orders : list (option Order)) (o : Order) :
  o ∈ valid_orders orders <->
  Some o ∈ orders /\ fgt (price o) fzero = true /\ fgt (amount o) fzero = true.
Proof.
  unfold valid_orders. rewrite list_elem_of_omap. split.
  - intros (x & Hx & Hv). destruct (is_valid x) eqn:E; [|done]. subst x.
    cbn in E. apply andb_true_iff in E. by split.
  - intros (Hin & Hp & Ha). exists (Some o). split; [done|].
    cbn. by rewrite Hp, Ha.
Qed.





(** C10, as the code has it.  A side other than BUY, recognised or not,
    is ranked by collateral exactly as SELL is: the selection is returned
    and nothing signals the unknown side. *)
Theorem get_best_order_unknown_side (orders : list (option Order)) (side : pystr) :
  side <> BUY -> get_best_order orders side = get_best_order orders SELL.
Proof.
  intros Hside. unfold get_best_order.
  destruct orders; [done|]. destruct (valid_orders _); [done|].
  rewrite bool_decide_eq_false_2 by done.
  by rewrite (bool_decide_eq_false_2 (SELL = BUY)).
Qed.

(** C4. [has_order_changed] is false for two absent orders, true when
    exactly one is present, and for two present orders true exactly when
    the price, the amount or the collateral differ under the float
    inequality [!=], without any tolerance. *)
Theorem has_order_changed_spec :
  has_order_changed None None = false /\
  (forall x, has_order_changed (Some x) None = true) /\
  (forall x, has_order_changed None (Some x) = true) /\
  (forall x y,
     has_order_changed (Some x) (Some y) = true <->
     fne (price x) (price y) = true \/ fne (amount x) (amount y) = true
     \/ fne (collateral x) (collateral y) = true).
Proof.
  repeat split; try done.
  - cbn. intros H. apply orb_true_iff in H as [H|H]; [|by auto].
    apply orb_true_iff in H as [H|H]; auto.
  - cbn. intros [H|[H|H]]; rewrite H; by rewrite ?orb_true_r.
Qed.

End Selection.

(** ** The price parser *)

Section PriceParser.
Context {ucd : UnicodeData}.

Lemma span_app_all (p : Z -> bool) (ds rest : pystr) :
  forallb p ds = true ->
  match rest with [] => True | c :: _ => p c = false end ->
  span p (ds ++ rest) = (ds, rest).
Proof.
  intros Hds Hrest. induction ds as [|d ds IH]; cbn.
  - destruct rest as [|c rest]; [done|]. cbn. by rewrite Hrest.
  - cbn in Hds. apply andb_true_iff in Hds as [Hd Hds].
    rewrite Hd, (IH Hds). done.
Qed.

Lemma is_ascii_digit_range c : is_ascii_digit c = true <-> 48 <= c <= 57.
Proof. unfold is_ascii_digit. rewrite andb_true_iff, !Z.leb_le. done. Qed.

Lemma is_ascii_digit_decimal c : is_ascii_digit c = true -> is_decimal c = true.
Proof.
  intros H. unfold is_decimal. apply is_ascii_digit_range in H as Hr.
  destruct (c <? 128) eqn:E; [done|]. apply Z.ltb_ge in E. lia.
Qed.

Lemma transform_ascii (s : pystr) :
  Forall (fun c => c < 127) s -> transform_decimal_and_space s = Some s.
Proof.
  unfold transform_decimal_and_space. induction 1 as [|c s Hc _ IH]; [done|].
  assert (to_ascii_char c = Some c) as Hchar.
  { unfold to_ascii_char. apply Z.ltb_lt in Hc. by rewrite Hc. }
  cbn. rewrite Hchar. cbn. by rewrite IH.
Qed.

Lemma digits_val_zeros n ds : digits_val (replicate n 48 ++ ds) = digits_val ds.
Proof.
  unfold digits_val. rewrite fold_left_app.
  assert (fold_left (fun acc c => 10 * acc + (c - 48)) (replicate n 48) 0 = 0) as ->; [|done].
  induction n as [|n IH]; [done|]. cbn. exact IH.
Qed.

Lemma lstrip_nonspace c s : py_isspace c = false -> lstrip (c :: s) = c :: s.
Proof. intros H. cbn. by rewrite H. Qed.

Lemma rstrip_nonspace s c : py_isspace c = false -> rstrip (s ++ [c]) = s ++ [c].
Proof.
  intros H. unfold rstrip. rewrite reverse_snoc, lstrip_nonspace by done.
  by rewrite reverse_cons, reverse_involutive.
Qed.

Lemma is_ascii_digit_not_space c : is_ascii_digit c = true -> py_isspace c = false.
Proof. intros H%is_ascii_digit_range. unfold py_isspace.
  apply orb_false_iff. split; [apply Z.eqb_neq; lia|]. apply andb_false_iff. right. apply Z.leb_gt. lia. Qed.

Lemma subscript_lookup k :
  0 <= k <= 9 ->
  is_subscript_digit (0x2080 + k) = true /\
  assoc_get [0x2080 + k] subscript_map = Some [48 + k].
Proof.
  intros Hk.
  assert (k = 0 \/ k = 1 \/ k = 2 \/ k = 3 \/ k = 4 \/ k = 5 \/ k = 6 \/ k = 7
          \/ k = 8 \/ k = 9) as Hcases by lia.
  repeat destruct Hcases as [->|Hcases]; try subst k; by vm_compute.
Qed.


Lemma parse_inf_or_nan_digit c s :
  is_ascii_digit c = true -> parse_inf_or_nan (c :: s) = None.
Proof.
  intros Hc%is_ascii_digit_range. unfold parse_inf_or_nan. cbn [map].
  assert (to_lower c = c) as ->.
  { unfold to_lower. destruct (65 <=? c) eqn:E; [apply Z.leb_le in E; lia|done]. }
  rewrite !bool_decide_eq_false_2; [done|..]; vm_compute utf8; intros [= ?]; lia.
Qed.

Lemma decimal_literal_float (k : nat) (digits : pystr) :
  digits <> [] -> forallb is_ascii_digit digits = true ->
  py_float_of_str (utf8 "0." ++ replicate k 48 ++ digits)
  = Some (decimal_float false (digits_val digits) (- (Z.of_nat k + Z.of_nat (length digits)))).
Proof.
  intros Hne Hds.
  assert (Hfrac : forallb is_ascii_digit (replicate k 48 ++ digits) = true).
  { rewrite forallb_app, Hds, andb_true_r. induction k; [done|]. done. }
  assert (Hall : Forall (fun c => 46 <= c <= 57) (utf8 "0." ++ replicate k 48 ++ digits)).
  { change (utf8 "0.") with [48; 46]. repeat constructor; try lia.
    apply Forall_forall. intros c Hc. 
    rewrite forallb_forall in Hfrac. apply list_elem_of_In, Hfrac, is_ascii_digit_range in Hc. lia. }
  destruct (exists_last Hne) as (ds & last & ->).
  assert (Hlast : is_ascii_digit last = true).
  { rewrite forallb_app in Hds. cbn in Hds. apply andb_true_iff in Hds as [_ H]. by rewrite andb_true_r in H. }
  unfold py_float_of_str.
  rewrite transform_ascii by (eapply Forall_impl; [exact Hall|]; cbn; lia).
  cbn [mbind option_bind].
  rewrite bool_decide_eq_false_2.
  2: { intros Hin. eapply Forall_forall in Hall; [|exact Hin]. cbn in Hall. lia. }
  cbn [mbind option_bind].
  change (utf8 "0.") with [48; 46]. cbn [app].
  rewrite lstrip_nonspace by done.
  rewrite !app_comm_cons, !app_assoc.
  rewrite rstrip_nonspace by (by apply is_ascii_digit_not_space).
  rewrite <- !app_assoc. cbn [app].
  set (frac := replicate k 48 ++ ds ++ [last]) in *.
  unfold parse_float_ascii.
  change (take_sign (48 :: 46 :: frac)) with (false, 48 :: 46 :: frac).
  cbn iota. rewrite parse_inf_or_nan_digit by done.
  change (span is_ascii_digit (48 :: 46 :: frac)) with ([48], 46 :: frac).
  cbn iota. change (46 =? 46) with true. cbn iota.
  rewrite <- (app_nil_r frac) at 1. rewrite (span_app_all _ frac []) by done.
  cbn iota. cbn [app parse_exponent mbind option_bind].
  f_equal. f_equal.
  - change (48 :: frac) with (replicate (S k) 48 ++ ds ++ [last]).
    apply digits_val_zeros.
  - unfold frac. rewrite !length_app, length_replicate. cbn. lia.
Qed.

Lemma match_price_pattern_subscript (k : Z) (digits rest : pystr) :
  0 <= k <= 9 -> digits <> [] -> forallb is_ascii_digit digits = true ->
  match rest with [] => True | c :: _ => is_decimal c = false end ->
  match_price_pattern (utf8 "0.0" ++ [0x2080 + k] ++ digits ++ rest) = Some digits.
Proof.
  intros Hk Hne Hds Hrest. change (utf8 "0.0") with [48; 46; 48]. cbn [app].
  unfold match_price_pattern.
  destruct (subscript_lookup k Hk) as [-> _]. cbn [Z.eqb andb Pos.eqb].
  change ((48 =? 48) && (46 =? 46) && (48 =? 48) && true) with true. cbn iota.
  rewrite span_app_all; [|..|done].
  - cbn [fst]. by destruct digits.
  - rewrite forallb_forall in *. intros c Hc. by apply is_ascii_digit_decimal, Hds.
Qed.

Lemma parse_special_price_decoded (k : Z) (digits rest : pystr) :
  0 <= k <= 9 -> digits <> [] -> forallb is_ascii_digit digits = true ->
  match rest with [] => True | c :: _ => is_decimal c = false end ->
  parse_special_price (PStr (utf8 "0.0" ++ [0x2080 + k] ++ digits ++ rest))
  = py_float (PStr (utf8 "0." ++ replicate (Z.to_nat k) 48 ++ digits)) /\
  py_float (PStr (utf8 "0." ++ replicate (Z.to_nat k) 48 ++ digits))
  = Ok (decimal_float false (digits_val digits) (- (k + Z.of_nat (length digits)))).
Proof.
  intros Hk Hne Hds Hrest.
  assert (Hfloat : py_float (PStr (utf8 "0." ++ replicate (Z.to_nat k) 48 ++ digits))
    = Ok (decimal_float false (digits_val digits) (- (k + Z.of_nat (length digits))))).
  { cbn [py_float]. rewrite decimal_literal_float by done.
    by rewrite Z2Nat.id by lia. }
  split; [|done].
  unfold parse_special_price. rewrite match_price_pattern_subscript by done.
  change (utf8 "0.0") with [48; 46; 48]. cbn [app].
  change (take 1 (drop 3 (48 :: 46 :: 48 :: 0x2080 + k :: digits ++ rest)))
    with [0x2080 + k].
  destruct (subscript_lookup k Hk) as [_ ->]. cbn [default from_option id].
  assert (py_int_digits [48 + k] = Ok k) as ->.
  { unfold py_int_digits. cbn [forallb].
    assert (is_ascii_digit (48 + k) = true) as -> by (apply is_ascii_digit_range; lia).
    cbn. unfold digits_val. cbn. f_equal. lia. }
  cbn [mbind result_bind]. by rewrite Hfloat.
Qed.

(** C2, as the code has it.  A string that starts with ["0.0"], a subscript
    digit of value [k] and a run of ASCII digits (the run ends with the
    string or before a character that is not a decimal digit; what follows
    is ignored) is decoded as [float("0." + "0" * k + digits)], the binary64
    value nearest to [digits * 10^-(k + len(digits))].  So
    [parse("0.0₃78")] is [0.00078]; with the subscript [₀] no zero is
    inserted and [parse("0.0₀5")] is [0.5]. *)
Theorem parse_special_price_subscript :
  (forall (k : Z) (digits rest : pystr),
     0 <= k <= 9 -> digits <> [] -> forallb is_ascii_digit digits = true ->
     match rest with [] => True | c :: _ => is_decimal c = false end ->
     parse_special_price (PStr (utf8 "0.0" ++ [0x2080 + k] ++ digits ++ rest))
     = py_float (PStr (utf8 "0." ++ replicate (Z.to_nat k) 48 ++ digits)) /\
     py_float (PStr (utf8 "0." ++ replicate (Z.to_nat k) 48 ++ digits))
     = Ok (decimal_float false (digits_val digits)
             (- (k + Z.of_nat (length digits))))) /\
  parse_special_price (PStr (utf8 "0.0₃78")) = Ok (Prim2SF 0.00078) /\
  parse_special_price (PStr (utf8 "0.0₀5")) = Ok (Prim2SF 0.5).
Proof.
  split; [apply parse_special_price_decoded|].
  split.
  - destruct (parse_special_price_decoded 3 (utf8 "78") []) as [H1 H2];
      [lia|done|done|done|].
    etrans; [exact H1|]. etrans; [exact H2|]. by vm_compute.
  - destruct (parse_special_price_decoded 0 (utf8 "5") []) as [H1 H2];
      [lia|done|done|done|].
    etrans; [exact H1|]. etrans; [exact H2|]. by vm_compute.
Qed.

End PriceParser.

(** The decoding at the subscript 3 and the digits 78 followed by text. *)
Lemma parse_special_price_subscript_witness :
  @parse_special_price ascii_only (PStr (utf8 "0.0₃78 USDT"))
  = Ok (decimal_float false 78 (-5)).
Proof.
  destruct (proj1 (@parse_special_price_subscript ascii_only)
              3 (utf8 "78") (utf8 " USDT")) as [H1 H2];
    [lia|done|done|done|].
  etrans; [exact H1|]. exact H2.
Defined.

(** The subscript [₀] gives [0.5], which is not [0.05]. *)
Lemma parse_subscript_zero_is_a_half :
  @parse_special_price ascii_only (PStr (utf8 "0.0₀5")) = Ok (Prim2SF 0.5) /\
  feq (Prim2SF 0.5) (Prim2SF 0.05) = false.
Proof. split; by vm_compute. Qed.

(** ** The price parser on arbitrary values, and the normaliser *)

Section Normaliser.
Context {ucd : UnicodeData}.

Lemma float_of_int_ok z : in_float_range z = true -> float_of_int z = Ok (float_of_Z z).
Proof. unfold in_float_range, float_of_int. by destruct (float_of_Z z). Qed.

Lemma float_of_int_overflow z :
  in_float_range z = false -> float_of_int z = Raise OverflowError.
Proof. unfold in_float_range, float_of_int. by destruct (float_of_Z z). Qed.

(** Every value of the subscript map is a digit that [int] reads. *)
Lemma subscript_map_int (c : pystr) :
  exists n, py_int_digits (default (utf8 "0") (assoc_get c subscript_map)) = Ok n.
Proof.
  unfold subscript_map. cbn [assoc_get].
  repeat case_decide; cbn [default from_option id]; by eexists.
Qed.

(** [parse_special_price] returns a float on every value except an [int]
    beyond the range of binary64. *)
Lemma parse_special_price_returns (v : pyval) :
  (forall z, v = PInt z -> in_float_range z = true) ->
  exists f, parse_special_price v = Ok f.
Proof.
  intros Hint. destruct v as [|b|z|f|s|l|d]; unfold parse_special_price;
    try by eexists.
  - cbn. rewrite float_of_int_ok by auto. by eexists.
  - destruct (match_price_pattern s); [|by eexists].
    destruct (subscript_map_int (take 1 (drop 3 s))) as [n ->]. by eexists.
Qed.

(** C8 at the input where it fails: the integer [10^400], which a JSON
    document can hold, makes [parse_special_price] raise [OverflowError], as
    does every integer beyond the range of binary64.  On every other input
    the function is total: a float is returned
    as it is, text that neither matches the pattern nor parses yields [0],
    and a value that is neither a number nor text yields [0]. *)
Theorem parse_special_price_overflow :
  parse_special_price (PInt (10 ^ 400)) = Raise OverflowError /\
  (forall z, in_float_range z = false ->
             parse_special_price (PInt z) = Raise OverflowError) /\
  (forall v, (forall z, v = PInt z -> in_float_range z = true) ->
             exists f, parse_special_price v = Ok f) /\
  (forall f, parse_special_price (PFloat f) = Ok f) /\
  (forall s, match_price_pattern s = None -> py_float_of_str s = None ->
             parse_special_price (PStr s) = Ok fzero) /\
  parse_special_price PNone = Ok fzero /\
  (forall l, parse_special_price (PList l) = Ok fzero) /\
  (forall d, parse_special_price (PDict d) = Ok fzero).
Proof.
  split; [by vm_compute|]. split; [apply float_of_int_overflow|].
  split; [apply parse_special_price_returns|].
  repeat split; try done.
  intros s Hpat Hfloat. cbn. by rewrite Hpat, Hfloat.
Qed.

(** [parse_order] succeeds exactly on a dict whose price and collateral
    convert; the order is then built from the converted values. *)
Lemma parse_order_Some (order : pyval) (side token : pystr) (o : Order) :
  parse_order order side token = Some o <->
  exists d p c,
    order = PDict d /\
    parse_special_price (raw_price d) = Ok p /\
    py_float (raw_collateral d) = Ok c /\
    o = {| order_id := raw_id d; side := side; price := p;
           amount := if fgt p fzero then fdiv c p else fzero;
           collateral := c; token := token |}.
Proof.
  unfold parse_order, raw_price, raw_collateral, raw_id. split.
  - destruct order as [| | | | | |d]; try done.
    unfold py_get. cbn [mbind result_bind].
    destruct (parse_special_price _) as [p|] eqn:Hp; [|done].
    destruct (py_float _) as [c|] eqn:Hc; [|done].
    intros [= <-]. by exists d, p, c.
  - intros (d & p & c & -> & Hp & Hc & ->).
    unfold py_get. cbn [mbind result_bind]. by rewrite Hp, Hc.
Qed.

Lemma parse_order_None (order : pyval) (side token : pystr) :
  parse_order order side token = None <->
  match order with
  | PDict d =>
    raises (parse_special_price (raw_price d)) \/ raises (py_float (raw_collateral d))
  | _ => True
  end.
Proof.
  unfold parse_order, raw_price, raw_collateral, raises.
  destruct order as [| | | | | |d]; try done.
  unfold py_get. cbn [mbind result_bind].
  destruct (parse_special_price _) as [p|e] eqn:Hp.
  - destruct (py_float _) as [c|e] eqn:Hc.
    + split; [done|]. by intros [[? ?]|[? ?]].
    + split; [|done]. intros _. right. by eexists.
  - split; [|done]. intros _. left. by eexists.
Qed.

(** C7, as the code has it.  [parse_order] returns [None] exactly when the
    construction raises: the raw record is not a dict, or the conversion of
    its price or of its collateral raises.  A missing collateral counts as
    [0]; a collateral that is present but does not convert (text that is not
    a number, [null], a list) is not replaced by [0], the record is dropped.
    In every other case an order is returned, also when its price or its
    amount is [0]. *)
Theorem parse_order_construction (order : pyval) (side token : pystr) :
  (parse_order order side token = None <->
   match order with
   | PDict d =>
     raises (parse_special_price (raw_price d)) \/
     raises (py_float (raw_collateral d))
   | _ => True
   end) /\
  (forall d, order = PDict d -> assoc_get (utf8 "collateral") d = None ->
     forall p, parse_special_price (raw_price d) = Ok p ->
     exists o, parse_order order side token = Some o /\
               collateral o = fzero /\ price o = p /\ amount o = fzero) /\
  (forall d v, order = PDict d -> assoc_get (utf8 "collateral") d = Some v ->
     raises (py_float v) -> parse_order order side token = None) /\
  (forall d p c, order = PDict d ->
     parse_special_price (raw_price d) = Ok p ->
     py_float (raw_collateral d) = Ok c ->
     exists o, parse_order order side token = Some o /\
               price o = p /\ collateral o = c).
Proof.
  split; [apply parse_order_None|]. split; [|split].
  - intros d -> Hmissing p Hp. eexists. split.
    + apply parse_order_Some. exists d, p, fzero. split; [done|]. split; [done|].
      split; [|done]. unfold raw_collateral. rewrite Hmissing. by vm_compute.
    + cbn. split; [done|]. split; [done|].
      destruct (fgt p fzero) eqn:Hpos; [|done].
      by destruct p as [[]|[]| |[] ? ?].
  - intros d v -> Hv Hraise. apply parse_order_None. right.
    unfold raw_collateral. by rewrite Hv.
  - intros d p c -> Hp Hc. eexists. split.
    + apply parse_order_Some. by exists d, p, c.
    + done.
Qed.

(** C9, as the code has it.  The amount of a parsed order is the float
    quotient [collateral / price] when the price is positive, and [0] when
    it is not, in particular when the price is [0]. *)
Theorem parse_order_amount (order : pyval) (side token : pystr) (o : Order) :
  parse_order order side token = Some o ->
  (fgt (price o) fzero = true -> amount o = fdiv (collateral o) (price o)) /\
  (fgt (price o) fzero = false -> amount o = fzero) /\
  (feq (price o) fzero = true -> amount o = fzero).
Proof.
  intros (d & p & c & _ & _ & _ & ->)%parse_order_Some. cbn.
  split; [by intros ->|]. split; [by intros ->|].
  intros Hzero. assert (fgt p fzero = false) as ->; [|done].
  revert Hzero. unfold fzero. clear. float_cases.
Qed.

End Normaliser.

(** ** The polling cycle *)

Section Cycle.
Context {ucd : UnicodeData}.
Implicit Types (tokens : Tokens) (w : World) (token : pystr).

Lemma process_token_Ok tokens w previous token locals seen seen' locals' :
  process_token tokens w previous token locals seen = (seen', Ok locals') ->
  best_of_side tokens w token (utf8 "buy") BUY = Ok (best_buy_of tokens w token) /\
  best_of_side tokens w token (utf8 "sell") SELL = Ok (best_sell_of tokens w token) /\
  seen_add seen (best_buy_of tokens w token) ≫= (fun s => seen_add s (best_sell_of tokens w token)) = Ok seen' /\
  locals' =
    {| all_orders := <[token := cycle_snapshot tokens w token]> (all_orders locals);
       changed_orders :=
         changed_orders locals
         ++ changed_sides previous token (best_buy_of tokens w token)
              (best_sell_of tokens w token) |}.
Proof.
  unfold process_token, best_buy_of, best_sell_of, cycle_snapshot, best_buy_of, best_sell_of.
  destruct (best_of_side tokens w token (utf8 "buy") BUY) as [bb|]; [|done].
  destruct (best_of_side tokens w token (utf8 "sell") SELL) as [bs|]; [|done].
  unfold catch.
  destruct (seen_add seen bb) as [s1|] eqn:H1; [|done].
  destruct (seen_add s1 bs) as [s2|] eqn:H2; [|done].
  intros [= <- <-]. cbn [mbind result_bind]. by rewrite H2.
Qed.

Lemma poll_tokens_Ok tokens w previous keys locals seen seen' locals' :
  poll_tokens tokens w previous keys locals seen = (seen', Ok locals') ->
  all_orders locals' =
    foldl (fun m token => <[token := cycle_snapshot tokens w token]> m)
          (all_orders locals) keys /\
  changed_orders locals' =
    changed_orders locals
    ++ flat_map (fun token => changed_sides previous token (best_buy_of tokens w token)
                                (best_sell_of tokens w token)) keys /\
  (forall token, token ∈ keys ->
     best_of_side tokens w token (utf8 "buy") BUY = Ok (best_buy_of tokens w token) /\
     best_of_side tokens w token (utf8 "sell") SELL = Ok (best_sell_of tokens w token)).
Proof.
  revert locals seen. induction keys as [|token keys IH]; intros locals seen.
  - intros [= <- <-]. cbn. rewrite app_nil_r. split; [done|]. split; [done|].
    intros token Hin. by apply elem_of_nil in Hin.
  - cbn [poll_tokens].
    destruct (process_token tokens w previous token locals seen) as [s1 [l1|e]] eqn:Hstep; [|done].
    apply process_token_Ok in Hstep as (Hb & Hs & _ & ->).
    intros (Hall & Hchanged & Hbest)%IH. cbn [all_orders changed_orders] in *.
    split; [done|]. split.
    + rewrite Hchanged. cbn [flat_map]. by rewrite <- app_assoc.
    + intros t [->|Hin]%elem_of_cons; [done|by apply Hbest].
Qed.

Lemma foldl_insert_lookup {V} (f : pystr -> V) (keys : list pystr) (m : gmap pystr V) (k : pystr) :
  foldl (fun m token => <[token := f token]> m) m keys !! k =
  if bool_decide (k ∈ keys) then Some (f k) else m !! k.
Proof.
  revert m. induction keys as [|token keys IH]; intros m; [done|].
  cbn [foldl]. rewrite IH. destruct (decide (k = token)) as [->|Hne].
  - rewrite (bool_decide_eq_true_2 (token ∈ token :: keys)) by left.
    case_bool_decide; [done|]. by rewrite lookup_insert_eq.
  - rewrite lookup_insert_ne by done.
    case_bool_decide as Hin.
    + by rewrite bool_decide_eq_true_2 by by right.
    + rewrite bool_decide_eq_false_2; [done|].
      intros [?|?]%elem_of_cons; done.
Qed.

Lemma run_cycle_Completed tokens w st st' batch out :
  run_cycle tokens w st = Completed st' batch out ->
  exists seen locals,
    poll_tokens tokens w (previous_orders st) tokens.*1
      {| all_orders := ∅; changed_orders := [] |} (seen_order_ids st) = (seen, Ok locals) /\
    st' = {| seen_order_ids := seen; previous_orders := all_orders locals;
             initial_display_done := true |} /\
    batch = changed_orders locals /\
    out = (if initial_display_done st then []
           else display_orders tokens (all_orders locals) false ++ [Print monitoring_line])
          ++ alert_outputs tokens w locals.
Proof.
  unfold run_cycle.
  destruct (poll_tokens _ _ _ _ _ _) as [seen [locals|e]]; [|done].
  intros [= <- <- <-]. by exists seen, locals.
Qed.

Lemma message_fold tokens (orders : list (option Order)) (text : pystr) :
  fold_left (fun telegram_message order =>
               match order with
               | None => telegram_message
               | Some order => telegram_message ++ order_block tokens order
               end) orders text
  = text ++ flat_map (fun order => match order with
                                   | Some order => order_block tokens order
                                   | None => []
                                   end) orders.
Proof.
  revert text. induction orders as [|[o|] orders IH]; intros text; cbn [fold_left flat_map].
  - by rewrite app_nil_r.
  - rewrite IH. by rewrite <- app_assoc.
  - by rewrite IH.
Qed.

Lemma create_message_nonempty tokens (batch : list (option Order)) :
  batch <> [] ->
  exists c rest,
    create_changed_orders_message tokens batch = Some (c :: rest) /\
    forall o, Some o ∈ batch -> infix_of (order_block tokens o) (c :: rest).
Proof.
  intros Hne. unfold create_changed_orders_message. destruct batch as [|x batch]; [done|].
  rewrite message_fold.
  assert (exists c h, message_header = c :: h) as (c & h & Hh) by (by vm_compute; eexists _, _).
  rewrite Hh. cbn [app]. eexists _, _. split; [done|].
  intros o Ho. rewrite app_comm_cons, <- Hh.
  apply list_elem_of_split in Ho as (l1 & l2 & ->).
  rewrite flat_map_app. cbn [flat_map].
  exists (message_header ++ flat_map (fun order => match order with Some order => order_block tokens order | None => [] end) l1), 
   (flat_map (fun order => match order with Some order => order_block tokens order | None => [] end) l2).
  by rewrite <- !app_assoc.
Qed.

Lemma display_orders_prints tokens all is_new msg :
  Telegram msg ∉ display_orders tokens all is_new.
Proof.
  unfold display_orders. intros [Hin|Hin]%elem_of_app.
  - repeat (apply elem_of_cons in Hin as [?|Hin]; [done|]). by apply elem_of_nil in Hin.
  - apply list_elem_of_In, in_flat_map in Hin as ([token config] & _ & Hin).
    apply list_elem_of_In in Hin.
    destruct (is_Some_b _ || is_Some_b _); [|by apply elem_of_nil in Hin].
    repeat (apply elem_of_app in Hin as [Hin|Hin]);
      repeat case_match;
      repeat (apply elem_of_cons in Hin as [?|Hin]; [done|]); by apply elem_of_nil in Hin.
Qed.

Lemma alert_outputs_empty tokens w locals :
  changed_orders locals = [] -> alert_outputs tokens w locals = [].
Proof. unfold alert_outputs. by intros ->. Qed.

Lemma alert_outputs_sends tokens w locals :
  changed_orders locals <> [] ->
  exists msg,
    create_changed_orders_message tokens (changed_orders locals) = Some msg /\
    Telegram msg ∈ alert_outputs tokens w locals /\
    forall o, Some o ∈ changed_orders locals -> infix_of (order_block tokens o) msg.
Proof.
  intros Hne. destruct (create_message_nonempty tokens _ Hne) as (c & rest & Hmsg & Hblocks).
  exists (c :: rest). split; [done|]. split; [|done].
  unfold alert_outputs. destruct (changed_orders locals) as [|x l] eqn:E; [done|].
  rewrite Hmsg. apply elem_of_app. right. apply elem_of_app. left. left.
Qed.

Lemma changed_sides_first tokens w token :
  changed_sides ∅ token (best_buy_of tokens w token) (best_sell_of tokens w token)
  = present (best_buy_of tokens w token) ++ present (best_sell_of tokens w token).
Proof.
  unfold changed_sides, snapshot_get. rewrite lookup_empty. cbn [mbind option_bind].
  by destruct (best_buy_of tokens w token), (best_sell_of tokens w token).
Qed.

Lemma completed_snapshots tokens w st st' batch out :
  run_cycle tokens w st = Completed st' batch out ->
  forall token,
    previous_orders st' !! token =
    if bool_decide (token ∈ tokens.*1) then Some (cycle_snapshot tokens w token) else None.
Proof.
  intros (seen & locals & Hpoll & -> & _ & _)%run_cycle_Completed token.
  apply poll_tokens_Ok in Hpoll as (Hall & _ & _). cbn [previous_orders all_orders] in *.
  rewrite Hall, foldl_insert_lookup. by rewrite lookup_empty.
Qed.

Lemma completed_batch tokens w st st' batch out :
  run_cycle tokens w st = Completed st' batch out ->
  batch = flat_map (fun token =>
                      changed_sides (previous_orders st) token
                        (best_buy_of tokens w token) (best_sell_of tokens w token))
                   tokens.*1.
Proof.
  intros (seen & locals & Hpoll & _ & -> & _)%run_cycle_Completed.
  by apply poll_tokens_Ok in Hpoll as (_ & -> & _).
Qed.

Lemma completed_telegram tokens w st st' batch out :
  run_cycle tokens w st = Completed st' batch out ->
  (batch = [] -> forall msg, Telegram msg ∉ out) /\
  (batch <> [] ->
   exists msg, create_changed_orders_message tokens batch = Some msg /\
               Telegram msg ∈ out /\
               forall o, Some o ∈ batch -> infix_of (order_block tokens o) msg).
Proof.
  intros (seen & locals & _ & _ & -> & ->)%run_cycle_Completed. split.
  - intros Hnil msg. rewrite alert_outputs_empty, app_nil_r by done.
    destruct (initial_display_done st); [by intros ?%elem_of_nil|].
    intros [Hin|Hin]%elem_of_app; [by apply display_orders_prints in Hin|].
    apply list_elem_of_singleton in Hin. done.
  - intros Hne. destruct (alert_outputs_sends tokens w locals Hne) as (msg & Hmsg & Hin & Hblocks).
    exists msg. split; [done|]. split; [|done]. apply elem_of_app. by right.
Qed.

(** C1, as the code has it.  On the first cycle, which starts from the
    empty state, a completed cycle stores the snapshot of every token, shows
    the current orders, and puts into the alert batch the best order of
    every side that has one, since an order that is present always differs
    from the absent previous one.  A change alert is sent exactly when that
    batch is not empty; only a first cycle without any valid order sends
    none. *)
Theorem first_cycle_alerts tokens w st' batch out :
  run_cycle tokens w initial_state = Completed st' batch out ->
  (forall token,
     previous_orders st' !! token =
     if bool_decide (token ∈ tokens.*1) then Some (cycle_snapshot tokens w token) else None) /\
  initial_display_done st' = true /\
  display_orders tokens (previous_orders st') false `prefix_of` out /\
  batch = flat_map (fun token => present (best_buy_of tokens w token)
                                 ++ present (best_sell_of tokens w token)) tokens.*1 /\
  (batch = [] -> forall msg, Telegram msg ∉ out) /\
  (batch <> [] ->
   exists msg, create_changed_orders_message tokens batch = Some msg /\ Telegram msg ∈ out).
Proof.
  intros Hrun. split; [by eapply completed_snapshots|].
  pose proof (completed_batch _ _ _ _ _ _ Hrun) as Hbatch.
  pose proof (completed_telegram _ _ _ _ _ _ Hrun) as [Hquiet Hsend].
  apply run_cycle_Completed in Hrun as (seen & locals & _ & -> & _ & ->).
  cbn [previous_orders initial_display_done initial_state] in *.
  split; [done|]. split.
  { rewrite <- app_assoc. by eexists. }
  split.
  { rewrite Hbatch. clear. induction (tokens.*1) as [|token keys IH]; [done|].
    cbn [flat_map]. by rewrite changed_sides_first, IH. }
  split; [done|].
  intros Hne. destruct (Hsend Hne) as (msg & ? & ? & _). by exists msg.
Qed.

(** C5. A cycle that runs to its end replaces the snapshot map by the
    results of that cycle alone: the new map holds exactly the configured
    tokens, each with the best orders just selected, whatever the map held
    before.  So when a side of a token had a best order in that cycle and
    yields no valid order in the next one, the comparison of the next cycle
    for that side is true, and the next batch records the disappearance. *)
Theorem snapshots_replaced_wholesale tokens w st st' batch out :
  run_cycle tokens w st = Completed st' batch out ->
  (forall token,
     previous_orders st' !! token =
     if bool_decide (token ∈ tokens.*1) then Some (cycle_snapshot tokens w token) else None) /\
  (forall token w2, token ∈ tokens.*1 ->
     (is_Some (best_buy_of tokens w token) -> best_buy_of tokens w2 token = None ->
      has_order_changed (best_buy_of tokens w2 token)
        (snapshot_get (previous_orders st') token buy) = true /\
      forall st2 batch2 out2,
        run_cycle tokens w2 st' = Completed st2 batch2 out2 -> None ∈ batch2) /\
     (is_Some (best_sell_of tokens w token) -> best_sell_of tokens w2 token = None ->
      has_order_changed (best_sell_of tokens w2 token)
        (snapshot_get (previous_orders st') token sell) = true /\
      forall st2 batch2 out2,
        run_cycle tokens w2 st' = Completed st2 batch2 out2 -> None ∈ batch2)).
Proof.
  intros Hrun. pose proof (completed_snapshots _ _ _ _ _ _ Hrun) as Hsnap.
  split; [done|]. intros token w2 Hin.
  assert (Hprev : previous_orders st' !! token = Some (cycle_snapshot tokens w token)).
  { by rewrite Hsnap, bool_decide_eq_true_2. }
  split.
  - intros [o Ho] Hgone.
    assert (Hchanged : has_order_changed (best_buy_of tokens w2 token)
              (snapshot_get (previous_orders st') token buy) = true).
    { unfold snapshot_get. rewrite Hprev, Hgone. cbn. by rewrite Ho. }
    split; [done|]. intros st2 batch2 out2 ->%completed_batch.
    apply list_elem_of_In, in_flat_map. exists token. split; [by apply list_elem_of_In|].
    apply list_elem_of_In. unfold changed_sides. rewrite Hchanged, Hgone.
    apply elem_of_app. left. left.
  - intros [o Ho] Hgone.
    assert (Hchanged : has_order_changed (best_sell_of tokens w2 token)
              (snapshot_get (previous_orders st') token sell) = true).
    { unfold snapshot_get. rewrite Hprev, Hgone. cbn. by rewrite Ho. }
    split; [done|]. intros st2 batch2 out2 ->%completed_batch.
    apply list_elem_of_In, in_flat_map. exists token. split; [by apply list_elem_of_In|].
    apply list_elem_of_In. unfold changed_sides. rewrite Hchanged, Hgone.
    apply elem_of_app. right. left.
Qed.

End Cycle.

(** ** The statements at concrete inputs *)

(** Both cycles of the example run to their end. *)
Lemma first_cycle_completed :
  first_cycle = Completed (state_after first_cycle) (batch_of first_cycle)
                          (outputs_of first_cycle).
Proof. by vm_compute. Defined.

Lemma second_cycle_completed :
  second_cycle = Completed (state_after second_cycle) (batch_of second_cycle)
                           (outputs_of second_cycle).
Proof. by vm_compute. Defined.

(** C1 fails on the first cycle in [market_a]: both best orders are in the
    batch and the alert is sent. *)
Lemma first_cycle_sends_alert :
  batch_of first_cycle = [Some (tea_buy (Prim2SF 100)); Some zkp_buy] /\
  Telegram first_alert ∈ outputs_of first_cycle.
Proof.
  split; [by vm_compute|].
  apply list_elem_of_lookup. exists 17%nat. by vm_compute.
Qed.

Lemma first_cycle_alerts_witness :
  batch_of first_cycle =
    flat_map (fun token =>
                present (@best_buy_of ascii_only example_tokens market_a token)
                ++ present (@best_sell_of ascii_only example_tokens market_a token))
             example_tokens.*1 /\
  exists msg, Telegram msg ∈ outputs_of first_cycle.
Proof.
  destruct (@first_cycle_alerts ascii_only _ _ _ _ _ first_cycle_completed)
    as (_ & _ & _ & Hbatch & _ & Hsend).
  split; [exact Hbatch|].
  destruct Hsend as (msg & _ & Hmsg); [by vm_compute|]. by exists msg.
Defined.

(** The integer 49 as a price and 1 as a collateral: the amount is the
    float nearest to 1/49, and its product with 49 is not 1. *)
Lemma amount_times_price_inexact :
  let o := {| order_id := PInt 1; side := BUY; price := Prim2SF 49;
              amount := Prim2SF (1 / 49); collateral := Prim2SF 1;
              token := TEA |} in
  @parse_order ascii_only (raw_order 1 (PStr (utf8 "49")) (PInt 1)) BUY TEA = Some o /\
  fgt (price o) fzero = true /\
  feq (fmul (amount o) (price o)) (collateral o) = false.
Proof. by vm_compute. Qed.

Lemma parse_order_amount_witness :
  amount (tea_buy (Prim2SF 100))
  = fdiv (collateral (tea_buy (Prim2SF 100))) (price (tea_buy (Prim2SF 100))).
Proof.
  apply (@parse_order_amount ascii_only
           (raw_order 1 (PStr (utf8 "1.0")) (PInt 100)) BUY TEA);
    by vm_compute.
Defined.

(** A collateral that is present and is not a number, or is [null], makes
    [parse_order] drop the record instead of taking the collateral as 0. *)
Lemma parse_order_drops_invalid_collateral :
  @parse_order ascii_only
    (raw_order 7 (PStr (utf8 "1.5")) (PStr (utf8 "n/a"))) BUY TEA = None /\
  @parse_order ascii_only (raw_order 7 (PStr (utf8 "1.5")) PNone) BUY TEA = None.
Proof. by vm_compute. Qed.

Lemma parse_order_construction_witness :
  @parse_order ascii_only (raw_order 7 (PStr (utf8 "1.5")) (PStr (utf8 "n/a")))
    BUY TEA = None /\
  exists o,
    @parse_order ascii_only
      (PDict [(utf8 "id", PInt 7); (utf8 "price", PStr (utf8 "0"))]) SELL TEA
    = Some o /\
    collateral o = fzero /\ price o = fzero /\ amount o = fzero.
Proof.
  split.
  - apply (proj1 (proj2 (proj2 (@parse_order_construction ascii_only
             (raw_order 7 (PStr (utf8 "1.5")) (PStr (utf8 "n/a"))) BUY TEA)))
             _ (PStr (utf8 "n/a")) eq_refl); [done|].
    by exists ValueError.
  - apply (proj1 (proj2 (@parse_order_construction ascii_only
             (PDict [(utf8 "id", PInt 7); (utf8 "price", PStr (utf8 "0"))])
             SELL TEA)) _ eq_refl); by vm_compute.
Defined.

(** A side that is neither BUY nor SELL gets the order with the greatest
    collateral, as SELL does. *)
Lemma unknown_side_selects_silently :
  get_best_order [Some high_price; Some high_collateral] (utf8 "HOLD")
  = Some high_collateral /\
  get_best_order [Some high_price; Some high_collateral] BUY = Some high_price /\
  utf8 "HOLD" <> BUY /\ utf8 "HOLD" <> SELL.
Proof. by vm_compute. Qed.

Lemma get_best_order_unknown_side_witness :
  get_best_order [Some high_price; Some high_collateral] (utf8 "HOLD")
  = get_best_order [Some high_price; Some high_collateral] SELL.
Proof. apply get_best_order_unknown_side. by vm_compute. Defined.



(** In the second cycle of the example the ZKP order is gone and the
    collateral of the TEA order has changed. *)
Lemma snapshots_replaced_wholesale_witness :
  previous_orders (state_after first_cycle) !! ZKP
  = Some (@cycle_snapshot ascii_only example_tokens market_a ZKP) /\
  None ∈ batch_of second_cycle.
Proof.
  destruct (@snapshots_replaced_wholesale ascii_only _ _ _ _ _ _ first_cycle_completed)
    as [Hsnap Hgone].
  split; [exact (Hsnap ZKP)|].
  destruct (Hgone ZKP market_b) as [Hbuy _]; [by vm_compute; right; left|].
  destruct Hbuy as [_ Hbatch]; [by eexists; vm_compute|by vm_compute|].
  exact (Hbatch _ _ _ second_cycle_completed).
Defined.

(** * Further properties *)

(** ** More on the floats *)

Lemma SFeqb_sym a b : SFeqb a b = SFeqb b a.
Proof. float_cases. Qed.

Lemma SFeqb_refl a : is_nan a = false -> SFeqb a a = true.
Proof. float_cases. Qed.

Lemma SFeqb_nan a : is_nan a = true -> SFeqb a a = false.
Proof. by destruct a. Qed.

Lemma binary_round_aux_shape sx mx ex lx :
  match binary_round_aux prec emax sx mx ex lx with
  | S754_zero s | S754_infinity s | S754_finite s _ _ => s = sx
  | S754_nan => True
  end.
Proof.
  unfold binary_round_aux.
  destruct (shr_fexp _ _ _ _ _) as [mrs' e'].
  destruct (shr_fexp _ _ _ _ _) as [mrs'' e''].
  destruct (shr_m mrs''); [done| |done]. by destruct (_ <=? _).
Qed.

Lemma fdiv_positive c p :
  fgt p fzero = true -> fgt (fdiv c p) fzero = true ->
  fgt c fzero = true /\ exists m e, p = S754_finite false m e.
Proof.
  unfold fgt, fzero, fdiv. intros Hp Hq.
  destruct p as [[]|[]| |[] mp ep]; try done;
    destruct c as [[]|[]| |[] mc ec]; try done;
    try (split; [done|by eexists _, _]).
  exfalso. revert Hq. cbn [SFdiv xorb].
  destruct (SFdiv_core_binary _ _ _ _ _ _) as [[mz ez] lz].
  pose proof (binary_round_aux_shape true mz ez lz) as H.
  by destruct (binary_round_aux _ _ _ _ _ _) as [[]|[]| |[] ? ?].
Qed.


Lemma shr_1_nonneg mrs : 0 <= shr_m mrs -> 0 <= shr_m (shr_1 mrs).
Proof. destruct mrs as [[|[p|p|]|p] r s]; cbn; lia. Qed.

Lemma iter_shr_1_nonneg p mrs : 0 <= shr_m mrs -> 0 <= shr_m (SpecFloat.iter_pos shr_1 p mrs).
Proof.
  revert mrs. induction p as [p IH|p IH|]; intros mrs H; cbn.
  - apply IH, IH. by apply shr_1_nonneg.
  - by apply IH, IH.
  - by apply shr_1_nonneg.
Qed.

Lemma shr_fexp_nonneg m e l :
  0 <= m -> 0 <= shr_m (shr_fexp prec emax m e l).1.
Proof.
  intros H. unfold shr_fexp, shr.
  assert (0 <= shr_m (shr_record_of_loc m l)) by (by destruct l as [|[]]).
  destruct (_ - e); cbn; [done| |done]. by apply iter_shr_1_nonneg.
Qed.

Lemma round_nearest_even_nonneg m l : 0 <= m -> 0 <= round_nearest_even m l.
Proof. intros H. destruct l as [|[]]; cbn; try lia. destruct (Z.even m); lia. Qed.

Lemma binary_round_aux_not_nan sx mx ex lx :
  0 <= mx -> is_nan (binary_round_aux prec emax sx mx ex lx) = false.
Proof.
  intros H. unfold binary_round_aux.
  pose proof (shr_fexp_nonneg mx ex lx H) as H1.
  destruct (shr_fexp prec emax mx ex lx) as [mrs' e']. cbn [fst] in H1.
  pose proof (shr_fexp_nonneg (round_nearest_even (shr_m mrs') (loc_of_shr_record mrs'))
                e' loc_Exact (round_nearest_even_nonneg _ _ H1)) as H2.
  destruct (shr_fexp prec emax _ e' loc_Exact) as [mrs'' e'']. cbn [fst] in H2.
  destruct (shr_m mrs''); [done| |lia]. by destruct (_ <=? _).
Qed.

Lemma decimal_float_unsigned m e :
  0 <= m -> is_nan (decimal_float false m e) = false /\
            fgt fzero (decimal_float false m e) = false.
Proof.
  intros Hm. unfold decimal_float. destruct m as [|p|p]; [done| |lia].
  assert (forall x, is_nan x = false ->
            match x with S754_zero s | S754_infinity s | S754_finite s _ _ => s = false
                       | S754_nan => True end ->
            is_nan x = false /\ fgt fzero x = false) as Hshape.
  { intros x Hx Hs. split; [done|]. by destruct x as [[]|[]| |[] ? ?]. }
  destruct (0 <=? e).
  - unfold binary_round. destruct (shl_align _ _ _) as [mz ez].
    apply Hshape; [by apply binary_round_aux_not_nan|apply binary_round_aux_shape].
  - cbn [SFdiv xorb].
    destruct (SFdiv_core_binary _ _ _ _ _ _) as [[mz ez] lz] eqn:E.
    apply Hshape; [|apply binary_round_aux_shape].
    apply binary_round_aux_not_nan.
    unfold SFdiv_core_binary in E.
    destruct (Z.div_eucl _ _) as [q r] eqn:Ediv. injection E as <- _ _.
    match type of Ediv with Z.div_eucl ?a ?b = _ =>
      pose proof (Z.div_eucl_eq a b ltac:(lia)) as Heq;
      pose proof (Z.mod_pos_bound a b ltac:(lia)) as Hmod;
      assert (0 <= a) as Ha
    end.
    { destruct (_ - _ - _); try lia. apply Z.shiftl_nonneg. lia. }
    rewrite Ediv in Heq. unfold Z.modulo in Hmod. rewrite Ediv in Hmod. nia.
Qed.

(** ** More on orders, the selector and the differ *)

Section OrdersMore.
Context {ucd : UnicodeData}.

(** X1. The differ is symmetric: comparing the current order with the
    previous one gives the same answer as comparing them the other way
    round. *)
Theorem has_order_changed_sym (a b : option Order) :
  has_order_changed a b = has_order_changed b a.
Proof.
  destruct a as [a|], b as [b|]; cbn; try done. unfold fne.
  by rewrite (SFeqb_sym (price a)), (SFeqb_sym (amount a)), (SFeqb_sym (collateral a)).
Qed.

Lemma fne_same x : fne x x = is_nan x.
Proof.
  unfold fne. destruct (is_nan x) eqn:E.
  - by rewrite SFeqb_nan.
  - by rewrite SFeqb_refl.
Qed.

(** X2. An order compared with itself counts as changed exactly when one of
    its price, amount and collateral is a NaN, since a NaN differs from
    itself. *)
Theorem has_order_changed_same (o : Order) :
  has_order_changed (Some o) (Some o) = negb (no_nan_fields o).
Proof.
  cbn. rewrite !fne_same. unfold no_nan_fields.
  by destruct (is_nan (price o)), (is_nan (amount o)), (is_nan (collateral o)).
Qed.

Lemma has_order_changed_same_valid (o : option Order) :
  (forall x, o = Some x -> no_nan_fields x = true) -> has_order_changed o o = false.
Proof.
  destruct o as [x|]; [|done]. intros H. specialize (H x eq_refl).
  cbn. rewrite !fne_same. unfold no_nan_fields in H.
  by destruct (is_nan (price x)), (is_nan (amount x)), (is_nan (collateral x)).
Qed.

Lemma valid_orders_idem (l : list (option Order)) :
  valid_orders (map Some (valid_orders l)) = valid_orders l.
Proof.
  unfold valid_orders.
  set (keep := fun o : option Order => if is_valid o then o else None).
  induction l as [|x l IH]; [done|].
  cbn [omap list_omap]. destruct (keep x) as [y|] eqn:E; [|done].
  assert (keep (Some y) = Some y) as Hy.
  { subst keep. cbn beta in *. destruct (is_valid x) eqn:Ev; [|done].
    subst x. by rewrite Ev. }
  cbn [map omap list_omap]. rewrite Hy. f_equal. exact IH.
Qed.

(** X3. The filter that [run] applies before it calls [get_best_order] does
    not change the selection: [get_best_order] filters in the same way. *)
Theorem get_best_order_prefiltered (l : list (option Order)) (sd : pystr) :
  get_best_order (map Some (valid_orders l)) sd = get_best_order l sd.
Proof.
  unfold get_best_order. rewrite valid_orders_idem.
  destruct (valid_orders l) as [|o valid] eqn:E.
  - by destruct l.
  - cbn [map]. destruct l; [done|]. done.
Qed.

Lemma py_max_elem {A} (key : A -> pyfloat) first rest :
  py_max key first rest ∈ first :: rest.
Proof.
  destruct (py_max_spec key first rest) as (earlier & later & -> & _).
  apply elem_of_app. right. left.
Qed.

Lemma get_best_order_elem (orders : list (option Order)) (sd : pystr) (o : Order) :
  get_best_order orders sd = Some o -> o ∈ valid_orders orders.
Proof.
  unfold get_best_order. destruct orders as [|x orders]; [done|].
  destruct (valid_orders (x :: orders)) as [|first rest]; [done|].
  case_bool_decide; intros [= <-]; apply py_max_elem.
Qed.

Lemma valid_parsed (order : pyval) (sd tok : pystr) (o : Order) :
  parse_order order sd tok = Some o -> is_valid (Some o) = true ->
  (exists m e, price o = S754_finite false m e) /\
  fgt (collateral o) fzero = true /\
  amount o = fdiv (collateral o) (price o) /\
  no_nan_fields o = true.
Proof.
  intros (d & p & c & _ & _ & _ & ->)%parse_order_Some. cbn.
  intros [Hp Ha]%andb_true_iff. rewrite Hp in Ha |- *.
  destruct (fdiv_positive c p Hp Ha) as [Hc Hfin].
  split; [done|]. split; [done|]. split; [done|].
  unfold no_nan_fields. cbn. unfold fgt in *.
  apply SFltb_not_nan in Hp as [_ ->]. apply SFltb_not_nan in Ha as [_ ->].
  by apply SFltb_not_nan in Hc as [_ ->].
Qed.

(** X4. A parsed order passes the filter exactly when its price is positive
    and the quotient of its collateral by its price is positive; such an
    order has a finite positive price, a positive collateral and no NaN
    field. *)
Theorem valid_parsed_order (order : pyval) (sd tok : pystr) (o : Order) :
  parse_order order sd tok = Some o ->
  (is_valid (Some o) = true <->
   fgt (price o) fzero = true /\ fgt (fdiv (collateral o) (price o)) fzero = true) /\
  (is_valid (Some o) = true ->
   (exists m e, price o = S754_finite false m e) /\
   fgt (collateral o) fzero = true /\
   no_nan_fields o = true).
Proof.
  intros Hparse. split.
  - apply parse_order_Some in Hparse as (d & p & c & _ & _ & _ & ->). cbn.
    rewrite andb_true_iff. split.
    + intros [Hp Ha]. by rewrite Hp in Ha.
    + intros [Hp Ha]. by rewrite Hp.
  - intros Hv. by destruct (valid_parsed _ _ _ _ Hparse Hv) as (? & ? & _ & ?).
Qed.

(** X5. A raw order without a price is given the price ["0"]: when its
    collateral converts, the order is built with price 0 and amount 0, and
    the filter rejects it. *)
Theorem parse_order_missing_price (d : list (pystr * pyval)) (sd tok : pystr) (c : pyfloat) :
  assoc_get (utf8 "price") d = None -> py_float (raw_collateral d) = Ok c ->
  exists o, parse_order (PDict d) sd tok = Some o /\
            price o = fzero /\ amount o = fzero /\ collateral o = c /\
            is_valid (Some o) = false.
Proof.
  intros Hmissing Hc. eexists. split.
  - apply parse_order_Some. exists d, fzero, c. split; [done|]. split; [|done].
    unfold raw_price. rewrite Hmissing. by vm_compute.
  - done.
Qed.
End OrdersMore.

(** ** The fetch and the selection of a side *)

Section PipelineMore.
Context {ucd : UnicodeData}.
Implicit Types (tokens : Tokens) (w : World) (tok sd ot : pystr).

(** X8. [fetch_orders] raises only [KeyError], and only when the token has
    no configured chain.  Otherwise it returns the empty list when the
    request or the JSON decoding fails, when the document is not an object,
    when its ["data"] is missing or is not an object, or when ["list"] is
    missing; in the remaining case it returns the value of ["list"] as it
    is, whatever its type. *)
Theorem fetch_orders_degrades tokens w tok ot :
  (assoc_get tok tokens ≫= chain = None ->
   fetch_orders tokens w tok ot = Raise KeyError) /\
  (forall chain_id, assoc_get tok tokens ≫= chain = Some chain_id ->
   fetch_orders tokens w tok ot =
   Ok match http_get w (fetch_params tok ot chain_id) with
      | Some (PDict d) =>
        match assoc_get (utf8 "data") d with
        | None => PList []
        | Some (PDict d') => default (PList []) (assoc_get (utf8 "list") d')
        | Some _ => PList []
        end
      | _ => PList []
      end).
Proof.
  unfold fetch_orders. split; [by intros ->|]. intros chain_id ->.
  fold (fetch_params tok ot chain_id).
  destruct (http_get w _) as [data|]; [|done]. f_equal.
  destruct data as [| | | | | |d]; try done.
  unfold py_get at 2. cbn [mbind result_bind].
  destruct (assoc_get (utf8 "data") d) as [v|]; cbn [default from_option id].
  - by destruct v.
  - done.
Qed.

Lemma best_of_side_Ok tokens w tok ot sd best :
  best_of_side tokens w tok ot sd = Ok best <->
  exists data items,
    fetch_orders tokens w tok ot = Ok data /\ py_iter data = Ok items /\
    best = get_best_order
             (map Some (valid_orders (map (fun o => parse_order o sd tok) items))) sd.
Proof.
  unfold best_of_side. split.
  - destruct (fetch_orders tokens w tok ot) as [data|]; [|done].
    cbn [mbind result_bind].
    destruct (py_iter data) as [items|] eqn:Hi; [|done]. cbn [mbind result_bind].
    intros [= <-]. by exists data, items.
  - intros (data & items & -> & Hi & ->). cbn [mbind result_bind].
    by rewrite Hi.
Qed.

Lemma best_of_side_parsed tokens w tok ot sd o :
  best_of_side tokens w tok ot sd = Ok (Some o) ->
  exists data items item,
    fetch_orders tokens w tok ot = Ok data /\ py_iter data = Ok items /\
    item ∈ items /\ parse_order item sd tok = Some o /\ is_valid (Some o) = true.
Proof.
  intros (data & items & Hf & Hi & Hbest)%best_of_side_Ok.
  symmetry in Hbest. apply get_best_order_elem in Hbest.
  rewrite valid_orders_idem in Hbest.
  apply valid_orders_elem in Hbest as (Hin & Hp & Ha).
  apply list_elem_of_fmap in Hin as (item & Hparse & Hitem).
  exists data, items, item. repeat split; try done. cbn. by rewrite Hp, Ha.
Qed.

(** X6. The best order that a cycle selects for a token and a side carries
    that token and that side, has a finite positive price, a positive amount
    and a positive collateral, and its amount is the quotient of its
    collateral by its price. *)
Theorem best_of_side_order tokens w tok ot sd o :
  best_of_side tokens w tok ot sd = Ok (Some o) ->
  token o = tok /\ side o = sd /\
  (exists m e, price o = S754_finite false m e) /\
  fgt (amount o) fzero = true /\ fgt (collateral o) fzero = true /\
  amount o = fdiv (collateral o) (price o).
Proof.
  intros (_ & _ & item & _ & _ & _ & Hp & Hv)%best_of_side_parsed.
  destruct (valid_parsed _ _ _ _ Hp Hv) as (Hfin & Hc & Ha & _).
  apply parse_order_Some in Hp as (d & p & c & _ & _ & _ & ->).
  cbn in *. apply andb_true_iff in Hv as [_ Hv]. done.
Qed.

(** X7. The best order of a side dominates every raw order of the fetched
    list that parses to a valid order: on the BUY side no such order has a
    higher price, on any other side none has a greater collateral. *)
Theorem best_of_side_dominates tokens w tok ot sd best data items :
  fetch_orders tokens w tok ot = Ok data -> py_iter data = Ok items ->
  best_of_side tokens w tok ot sd = Ok (Some best) ->
  forall item o,
    item ∈ items -> parse_order item sd tok = Some o -> is_valid (Some o) = true ->
    if bool_decide (sd = BUY) then fle (price o) (price best) = true
    else fle (collateral o) (collateral best) = true.
Proof.
  intros Hf Hi (data' & items' & Hf' & Hi' & Hbest)%best_of_side_Ok item o Hitem Hp Hv.
  rewrite Hf in Hf'. injection Hf' as <-. rewrite Hi in Hi'. injection Hi' as <-.
  set (parsed := map (fun o => parse_order o sd tok) items) in *.
  assert (Ho : o ∈ valid_orders parsed).
  { apply valid_orders_elem. cbn in Hv. apply andb_true_iff in Hv as [? ?].
    split; [|done]. apply list_elem_of_fmap. by exists item. }
  assert (Hnan : forall x, x ∈ valid_orders parsed ->
                           is_nan (price x) = false /\ is_nan (collateral x) = false).
  { intros x (Hin & Hpx & Hax)%valid_orders_elem.
    apply list_elem_of_fmap in Hin as (it & Hparse & _). symmetry in Hparse.
    destruct (valid_parsed _ _ _ _ Hparse) as (_ & Hc & _ & _).
    { cbn. by rewrite Hpx, Hax. }
    unfold fgt in *. apply SFltb_not_nan in Hpx as [_ ?].
    by apply SFltb_not_nan in Hc as [_ ?]. }
  unfold get_best_order in Hbest. rewrite valid_orders_idem in Hbest.
  destruct (valid_orders parsed) as [|first rest] eqn:Evalid.
  { by apply elem_of_nil in Ho. }
  cbn [map] in Hbest. case_bool_decide; injection Hbest as ->.
  - destruct (py_max_spec price first rest) as (_ & _ & _ & Hmax & _).
    unfold fle. apply SFltb_false_le; [by apply Hmax| |]; apply Hnan; [|done].
    apply py_max_elem.
  - destruct (py_max_spec collateral first rest) as (_ & _ & _ & Hmax & _).
    unfold fle. apply SFltb_false_le; [by apply Hmax| |]; apply Hnan; [|done].
    apply py_max_elem.
Qed.

Lemma best_no_nan tokens w tok ot sd o :
  catch (best_of_side tokens w tok ot sd) None = Some o -> no_nan_fields o = true.
Proof.
  destruct (best_of_side tokens w tok ot sd) as [best|] eqn:E; [|done].
  cbn. intros ->. apply best_of_side_parsed in E as (_ & _ & item & _ & _ & _ & Hp & Hv).
  by destruct (valid_parsed _ _ _ _ Hp Hv) as (_ & _ & _ & ?).
Qed.
End PipelineMore.

(** ** The alert for a changed side *)

Section AlertBlocks.
Context {ucd : UnicodeData}.

(** The best order of a token and a side carries that token and that side. *)
Lemma best_order_fields tokens w tok ot sd o :
  catch (best_of_side tokens w tok ot sd) None = Some o ->
  token o = tok /\ side o = sd.
Proof.
  intros H. destruct (best_of_side tokens w tok ot sd) as [best|] eqn:Hbest; [|done].
  cbn in H. subst best.
  apply best_of_side_parsed in Hbest as (_ & _ & item & _ & _ & _ & Hparse & _).
  apply parse_order_Some in Hparse as (d & p & c & _ & _ & _ & ->). done.
Qed.

Lemma order_block_buy tokens o :
  side o = BUY ->
  order_block tokens o
  = alert_block (default [] (assoc_get (token o) tokens ≫= emoji)) (utf8 "🟢") (token o)
      (utf8 "BUY") (price o) (amount o) (collateral o).
Proof.
  intros Hside. unfold order_block, alert_block. rewrite Hside.
  rewrite bool_decide_eq_true_2 by done. by rewrite bool_decide_eq_true_2 by done.
Qed.

Lemma order_block_sell tokens o :
  side o = SELL ->
  order_block tokens o
  = alert_block (default [] (assoc_get (token o) tokens ≫= emoji)) (utf8 "🔴") (token o)
      (utf8 "SELL") (price o) (amount o) (collateral o).
Proof.
  intros Hside. unfold order_block, alert_block. rewrite Hside.
  rewrite (bool_decide_eq_false_2 (SELL = BUY)) by (by vm_compute).
  by rewrite (bool_decide_eq_false_2 (utf8 "SELL" = utf8 "BUY")) by (by vm_compute).
Qed.

Lemma has_order_changed_None_l prev :
  has_order_changed None prev = true -> is_Some prev.
Proof. destruct prev; [by eexists|done]. Qed.

(** What a cycle does with an entry that the differ adds to the batch. *)
Lemma queued_side_alerted tokens w st st' batch out tok best :
  run_cycle tokens w st = Completed st' batch out -> tok ∈ tokens.*1 ->
  best ∈ changed_sides (previous_orders st) tok
           (best_buy_of tokens w tok) (best_sell_of tokens w tok) ->
  best ∈ batch /\
  exists msg, Telegram msg ∈ out /\ msg = message_header ++ batch_blocks tokens batch /\
              forall o, best = Some o -> infix_of (order_block tokens o) msg.
Proof.
  intros Hrun Hin Hbest.
  pose proof (completed_batch _ _ _ _ _ _ Hrun) as Hbatch.
  pose proof (completed_telegram _ _ _ _ _ _ Hrun) as [_ Hsend].
  assert (Hb : best ∈ batch).
  { rewrite Hbatch. apply list_elem_of_In, in_flat_map. exists tok.
    split; by apply list_elem_of_In. }
  split; [done|].
  destruct Hsend as (msg & Hmsg & Hsent & Hblocks).
  { intros ->. by apply elem_of_nil in Hb. }
  exists msg. split; [done|]. split.
  - unfold create_changed_orders_message in Hmsg. destruct batch as [|x batch].
    { by apply elem_of_nil in Hb. }
    rewrite message_fold in Hmsg. by injection Hmsg as <-.
  - intros o ->. by apply Hblocks.
Qed.

(** C6, as the code has it.  In a cycle, for every configured token and for
    each of its two sides: when the differ reports a change, the current best
    of that side is appended to the alert batch and a message is handed to
    the alert sink, which is the header followed by what the batch
    contributes.  When the current best is an order, the message contains its
    block: the label line with the emoji of the token, the mark of the side,
    the token and the side, then the price with six decimals, the amount and
    the collateral grouped by thousands without decimals, and the rule.  When
    there is no current best, the side had an order before and has none now:
    the entry appended is [None], which contributes no text. *)
Theorem changed_side_alerted tokens w st st' batch out tok :
  run_cycle tokens w st = Completed st' batch out -> tok ∈ tokens.*1 ->
  let token_emoji := default [] (assoc_get tok tokens ≫= emoji) in
  (has_order_changed (best_buy_of tokens w tok)
     (snapshot_get (previous_orders st) tok buy) = true ->
   best_buy_of tokens w tok ∈ batch /\
   exists msg, Telegram msg ∈ out /\ msg = message_header ++ batch_blocks tokens batch /\
     match best_buy_of tokens w tok with
     | Some o =>
       infix_of (alert_block token_emoji (utf8 "🟢") tok (utf8 "BUY")
                   (price o) (amount o) (collateral o)) msg
     | None =>
       is_Some (snapshot_get (previous_orders st) tok buy) /\
       batch_blocks tokens [best_buy_of tokens w tok] = []
     end) /\
  (has_order_changed (best_sell_of tokens w tok)
     (snapshot_get (previous_orders st) tok sell) = true ->
   best_sell_of tokens w tok ∈ batch /\
   exists msg, Telegram msg ∈ out /\ msg = message_header ++ batch_blocks tokens batch /\
     match best_sell_of tokens w tok with
     | Some o =>
       infix_of (alert_block token_emoji (utf8 "🔴") tok (utf8 "SELL")
                   (price o) (amount o) (collateral o)) msg
     | None =>
       is_Some (snapshot_get (previous_orders st) tok sell) /\
       batch_blocks tokens [best_sell_of tokens w tok] = []
     end).
Proof.
  intros Hrun Hin token_emoji. subst token_emoji. split; intros Hchanged.
  - destruct (queued_side_alerted tokens w st st' batch out tok (best_buy_of tokens w tok))
      as (Hb & msg & Hsent & Hmsg & Hblock); [done|done| |].
    { unfold changed_sides. rewrite Hchanged. apply elem_of_app. left. left. }
    split; [done|]. exists msg. split; [done|]. split; [done|].
    destruct (best_buy_of tokens w tok) as [o|] eqn:Hbest.
    + apply best_order_fields in Hbest as [Htok Hside].
      specialize (Hblock o eq_refl). rewrite (order_block_buy tokens o Hside) in Hblock.
      by rewrite Htok in Hblock.
    + split; [|done]. by apply has_order_changed_None_l.
  - destruct (queued_side_alerted tokens w st st' batch out tok (best_sell_of tokens w tok))
      as (Hb & msg & Hsent & Hmsg & Hblock); [done|done| |].
    { unfold changed_sides. rewrite Hchanged. apply elem_of_app. right. left. }
    split; [done|]. exists msg. split; [done|]. split; [done|].
    destruct (best_sell_of tokens w tok) as [o|] eqn:Hbest.
    + apply best_order_fields in Hbest as [Htok Hside].
      specialize (Hblock o eq_refl). rewrite (order_block_sell tokens o Hside) in Hblock.
      by rewrite Htok in Hblock.
    + split; [|done]. by apply has_order_changed_None_l.
Qed.
End AlertBlocks.

(** ** More on the polling cycle *)

Section CycleMore.
Context {ucd : UnicodeData}.
Implicit Types (tokens : Tokens) (w : World) (tok : pystr).

Lemma py_iter_raise (v : pyval) (e : exn) : py_iter v = Raise e -> e = TypeError.
Proof. destruct v; cbn; try done; by intros [= <-]. Qed.

Lemma seen_add_prefix seen best seen' :
  seen_add seen best = Ok seen' -> seen `prefix_of` seen'.
Proof.
  destruct best as [o|]; cbn.
  - destruct (py_hashable (order_id o)); [|done]. intros [= <-]. by eexists.
  - by intros [= <-].
Qed.

Lemma process_token_seen tokens w previous tok locals seen :
  seen `prefix_of` (process_token tokens w previous tok locals seen).1 /\
  forall e, (process_token tokens w previous tok locals seen).2 = Raise e ->
            e = KeyError \/ e = TypeError.
Proof.
  unfold process_token.
  assert (Hside : forall ot sd e, best_of_side tokens w tok ot sd = Raise e ->
                                  e = KeyError \/ e = TypeError).
  { intros ot sd e. unfold best_of_side.
    destruct (fetch_orders tokens w tok ot) as [data|e'] eqn:Ef.
    - cbn [mbind result_bind].
      destruct (py_iter data) as [|e''] eqn:E; [done|]. cbn [mbind result_bind].
      intros [= <-]. right. by eapply py_iter_raise.
    - cbn [mbind result_bind]. intros [= <-]. left. revert Ef. unfold fetch_orders.
      destruct (assoc_get tok tokens ≫= chain); [|by intros [= <-]].
      by destruct (http_get w _). }
  assert (Hadd : forall s best e, seen_add s best = Raise e -> e = TypeError).
  { intros s [o|] e; cbn; [|done]. by destruct (py_hashable _); [|intros [= <-]]. }
  destruct (best_of_side tokens w tok (utf8 "buy") BUY) as [bb|e1] eqn:E1.
  2:{ cbn. split; [done|]. intros e [= <-]. eauto. }
  destruct (best_of_side tokens w tok (utf8 "sell") SELL) as [bs|e2] eqn:E2.
  2:{ cbn. split; [done|]. intros e [= <-]. eauto. }
  destruct (seen_add seen bb) as [s1|e3] eqn:E3.
  2:{ cbn. split; [done|]. intros e [= <-]. right. eauto. }
  apply seen_add_prefix in E3 as E3'.
  destruct (seen_add s1 bs) as [s2|e4] eqn:E4.
  2:{ cbn. split; [done|]. intros e [= <-]. right. eauto. }
  apply seen_add_prefix in E4. cbn. split; [by etrans|done].
Qed.

Lemma poll_tokens_seen tokens w previous keys locals seen :
  seen `prefix_of` (poll_tokens tokens w previous keys locals seen).1 /\
  forall e, (poll_tokens tokens w previous keys locals seen).2 = Raise e ->
            e = KeyError \/ e = TypeError.
Proof.
  revert locals seen. induction keys as [|tok keys IH]; intros locals seen; [done|].
  cbn [poll_tokens].
  pose proof (process_token_seen tokens w previous tok locals seen) as [Hpre Herr].
  destruct (process_token tokens w previous tok locals seen) as [s1 [l1|e1]]; cbn in *.
  - destruct (IH l1 s1) as [Hpre' Herr']. split; [by etrans|done].
  - split; [done|]. intros e [= <-]. by apply Herr.
Qed.

(** X11. The ids seen only grow: after a cycle, completed or aborted, the
    ids seen before are still there, in front of the new ones. *)
Theorem seen_order_ids_grow tokens w st :
  seen_order_ids st `prefix_of` seen_order_ids (state_after (run_cycle tokens w st)).
Proof.
  unfold run_cycle.
  pose proof (poll_tokens_seen tokens w (previous_orders st) tokens.*1
                {| all_orders := ∅; changed_orders := [] |} (seen_order_ids st)) as [H _].
  by destruct (poll_tokens _ _ _ _ _ _) as [seen [locals|e]].
Qed.


Lemma alert_outputs_telegram tokens w locals msg :
  Telegram msg ∈ alert_outputs tokens w locals ->
  create_changed_orders_message tokens (changed_orders locals) = Some msg.
Proof.
  unfold alert_outputs. destruct (changed_orders locals) as [|x l] eqn:E.
  { by intros ?%elem_of_nil. }
  intros [Hin|Hin]%elem_of_app; [by apply display_orders_prints in Hin|].
  apply elem_of_app in Hin as [Hin|Hin].
  - destruct (create_changed_orders_message tokens (x :: l)) as [[|c m]|]; 
      try by apply elem_of_nil in Hin.
    apply elem_of_cons in Hin as [[= ->]|Hin]; [done|].
    destruct (telegram_post w (c :: m)); [|by apply elem_of_nil in Hin].
    by apply list_elem_of_singleton in Hin.
  - by apply list_elem_of_singleton in Hin.
Qed.

Lemma completed_telegram_is_batch tokens w st st' batch out msg :
  run_cycle tokens w st = Completed st' batch out ->
  Telegram msg ∈ out -> create_changed_orders_message tokens batch = Some msg.
Proof.
  intros (seen & locals & _ & _ & -> & ->)%run_cycle_Completed.
  intros [Hin|Hin]%elem_of_app; [|by apply alert_outputs_telegram in Hin].
  destruct (initial_display_done st); [by apply elem_of_nil in Hin|].
  apply elem_of_app in Hin as [Hin|Hin]; [by apply display_orders_prints in Hin|].
  by apply list_elem_of_singleton in Hin.
Qed.

(** X14. In a completed cycle, every message handed to the alert sink is the
    header followed by the blocks of the present orders of the batch, in
    batch order, and the batch is not empty; conversely a non-empty batch
    always hands over a message. *)
Theorem telegram_is_batch_message tokens w st st' batch out :
  run_cycle tokens w st = Completed st' batch out ->
  (forall msg, Telegram msg ∈ out ->
     batch <> [] /\
     msg = message_header
           ++ flat_map (fun order => match order with
                                     | Some order => order_block tokens order
                                     | None => []
                                     end) batch) /\
  (batch <> [] -> exists msg, Telegram msg ∈ out).
Proof.
  intros Hrun. split.
  - intros msg Hin. pose proof (completed_telegram_is_batch _ _ _ _ _ _ _ Hrun Hin) as Hmsg.
    unfold create_changed_orders_message in Hmsg. destruct batch as [|x batch]; [done|].
    split; [done|]. rewrite message_fold in Hmsg. by injection Hmsg as <-.
  - intros Hne. destruct (completed_telegram _ _ _ _ _ _ Hrun) as [_ Hsend].
    destruct (Hsend Hne) as (msg & _ & ? & _). by exists msg.
Qed.

(** X15. When every change of a completed cycle is a disappearance, the
    alert is still sent and consists of the header alone. *)
Theorem disappearance_only_alert tokens w st st' batch out :
  run_cycle tokens w st = Completed st' batch out ->
  batch <> [] -> (forall x, x ∈ batch -> x = None) ->
  Telegram message_header ∈ out /\
  forall msg, Telegram msg ∈ out -> msg = message_header.
Proof.
  intros Hrun Hne Hnone.
  assert (Hmsg : create_changed_orders_message tokens batch = Some message_header).
  { unfold create_changed_orders_message. destruct batch as [|x batch]; [done|].
    rewrite message_fold. f_equal. rewrite <- (app_nil_r message_header) at 2.
    f_equal. revert Hnone. generalize (x :: batch). clear.
    induction l as [|y l IH]; intros H; [done|]. cbn [flat_map].
    rewrite (H y) by left. apply IH. intros z Hz. apply H. by right. }
  split.
  - destruct (completed_telegram _ _ _ _ _ _ Hrun) as [_ Hsend].
    destruct (Hsend Hne) as (msg & Hm & Hin & _). rewrite Hmsg in Hm.
    by injection Hm as <-.
  - intros msg Hin. pose proof (completed_telegram_is_batch _ _ _ _ _ _ _ Hrun Hin) as Hm.
    rewrite Hmsg in Hm. by injection Hm as <-.
Qed.

(** X16. When two consecutive completed cycles select the same best orders
    for every configured token, the second one queues nothing, prints and
    sends nothing, and leaves the snapshots as they are. *)
Theorem steady_market_is_quiet tokens w1 w2 st st1 batch1 out1 st2 batch2 out2 :
  run_cycle tokens w1 st = Completed st1 batch1 out1 ->
  run_cycle tokens w2 st1 = Completed st2 batch2 out2 ->
  (forall tok, tok ∈ tokens.*1 ->
     cycle_snapshot tokens w2 tok = cycle_snapshot tokens w1 tok) ->
  batch2 = [] /\ out2 = [] /\ previous_orders st2 = previous_orders st1.
Proof.
  intros Hrun1 Hrun2 Hsame.
  pose proof (completed_snapshots _ _ _ _ _ _ Hrun1) as Hsnap1.
  pose proof (completed_snapshots _ _ _ _ _ _ Hrun2) as Hsnap2.
  assert (Hbatch : batch2 = []).
  { rewrite (completed_batch _ _ _ _ _ _ Hrun2).
    assert (forall keys, (forall tok, tok ∈ keys -> tok ∈ tokens.*1) ->
              flat_map (fun tok => changed_sides (previous_orders st1) tok
                                     (best_buy_of tokens w2 tok)
                                     (best_sell_of tokens w2 tok)) keys = []) as H;
      [|by apply H].
    induction keys as [|tok keys IH]; intros Hsub; [done|].
    cbn [flat_map]. rewrite IH by (intros t Ht; apply Hsub; by right).
    rewrite app_nil_r. unfold changed_sides, snapshot_get.
    rewrite Hsnap1, bool_decide_eq_true_2 by (apply Hsub; left).
    cbn [mbind option_bind]. rewrite <- Hsame by (apply Hsub; left).
    cbn [cycle_snapshot buy sell].
    rewrite !has_order_changed_same_valid; [done|..];
      intros x Hx; eapply best_no_nan; exact Hx. }
  split; [done|]. split.
  - apply run_cycle_Completed in Hrun1 as (? & ? & _ & -> & _ & _).
    apply run_cycle_Completed in Hrun2 as (? & locals & _ & _ & Hb & ->).
    cbn [initial_display_done]. rewrite alert_outputs_empty; [done|].
    by rewrite <- Hb.
  - apply map_eq. intros tok. rewrite Hsnap1, Hsnap2.
    case_bool_decide; [|done]. by rewrite Hsame.
Qed.





End CycleMore.

(** ** More on the price parser *)

Section ParserMore.
Context {ucd : UnicodeData}.

Lemma is_subscript_digit_range c : is_subscript_digit c = true -> 0x2080 <= c <= 0x2089.
Proof.
  unfold is_subscript_digit. intros H%bool_decide_eq_true.
  vm_compute utf8 in H.
  repeat (apply elem_of_cons in H as [->|H]; [lia|]). by apply elem_of_nil in H.
Qed.

Lemma transform_Some_char (s a : pystr) (c : Z) :
  transform_decimal_and_space s = Some a -> c ∈ s -> is_Some (to_ascii_char c).
Proof.
  unfold transform_decimal_and_space. intros H%mapM_Some Hc.
  apply list_elem_of_lookup in Hc as [i Hi].
  destruct (Forall2_lookup_l _ _ _ _ _ H Hi) as (y & _ & Hy). by exists y.
Qed.

(** X9. When the subscript digits are neither decimal digits nor spaces for
    the interpreter, every string that [float] accepts is parsed to the very
    float that [float] returns: the subscript pattern never captures a plain
    number. *)
Theorem parse_special_price_agrees_with_float (s : pystr) (f : pyfloat) :
  (forall c, is_subscript_digit c = true ->
             uni_todecimal c = None /\ uni_isspace c = false) ->
  py_float (PStr s) = Ok f -> parse_special_price (PStr s) = Ok f.
Proof.
  intros Hucd Hfloat. unfold parse_special_price.
  destruct (match_price_pattern s) as [ds|] eqn:Hpat; [|by rewrite Hfloat].
  exfalso. unfold match_price_pattern in Hpat.
  destruct s as [|c0 [|c1 [|c2 [|c3 rest]]]]; try done.
  destruct (_ && is_subscript_digit c3) eqn:Hc; [|done].
  apply andb_true_iff in Hc as [_ Hsub].
  cbn [py_float] in Hfloat. unfold py_float_of_str in Hfloat.
  destruct (transform_decimal_and_space _) as [a|] eqn:Ht; [|done].
  destruct (transform_Some_char _ _ c3 Ht) as [y Hy].
  { do 3 right. left. }
  unfold to_ascii_char in Hy. apply is_subscript_digit_range in Hsub as Hr.
  destruct (Hucd c3 Hsub) as [Hd Hs].
  destruct (c3 <? 127) eqn:E; [apply Z.ltb_lt in E; lia|].
  by rewrite Hs, Hd in Hy.
Qed.
End ParserMore.


Section SubscriptSign.
Context {ucd : UnicodeData}.

Lemma digits_val_nonneg (ds : pystr) :
  forallb is_ascii_digit ds = true -> 0 <= digits_val ds.
Proof.
  unfold digits_val. induction ds as [|c ds IH] using rev_ind; [done|].
  rewrite forallb_app, fold_left_app. cbn.
  intros [Hds [Hc%is_ascii_digit_range _]%andb_true_iff]%andb_true_iff.
  specialize (IH Hds). lia.
Qed.

(** X10. A price written in the subscript notation with ASCII digits is
    parsed to a float that is neither a NaN nor negative. *)
Theorem subscript_price_not_negative (k : Z) (digits rest : pystr) :
  0 <= k <= 9 -> digits <> [] -> forallb is_ascii_digit digits = true ->
  match rest with [] => True | c :: _ => is_decimal c = false end ->
  exists f,
    parse_special_price (PStr (utf8 "0.0" ++ [0x2080 + k] ++ digits ++ rest)) = Ok f /\
    is_nan f = false /\ fgt fzero f = false.
Proof.
  intros Hk Hne Hds Hrest.
  destruct (parse_special_price_decoded k digits rest Hk Hne Hds Hrest) as [H1 H2].
  eexists. split; [by rewrite H1, H2|].
  apply decimal_float_unsigned. by apply digits_val_nonneg.
Qed.

End SubscriptSign.

(** ** The further properties at concrete inputs *)

Lemma steady_cycle_completed :
  steady_cycle = Completed (state_after steady_cycle) (batch_of steady_cycle)
                           (outputs_of steady_cycle).
Proof. by vm_compute. Defined.

Lemma zkp_gone_cycle_completed :
  zkp_gone_cycle = Completed (state_after zkp_gone_cycle) (batch_of zkp_gone_cycle)
                             (outputs_of zkp_gone_cycle).
Proof. by vm_compute. Defined.

Lemma valid_parsed_order_witness :
  fgt (collateral (tea_buy (Prim2SF 100))) fzero = true /\
  no_nan_fields (tea_buy (Prim2SF 100)) = true.
Proof.
  destruct (proj2 (@valid_parsed_order ascii_only
                     (raw_order 1 (PStr (utf8 "1.0")) (PInt 100)) BUY TEA
                     (tea_buy (Prim2SF 100)) ltac:(by vm_compute)))
    as (_ & Hc & Hn); [by vm_compute|].
  by split.
Defined.

Lemma parse_order_missing_price_witness :
  exists o,
    @parse_order ascii_only
      (PDict [(utf8 "id", PInt 7); (utf8 "collateral", PInt 5)]) SELL TEA = Some o /\
    price o = fzero /\ amount o = fzero /\ collateral o = Prim2SF 5 /\
    is_valid (Some o) = false.
Proof.
  apply (@parse_order_missing_price ascii_only
           [(utf8 "id", PInt 7); (utf8 "collateral", PInt 5)] SELL TEA (Prim2SF 5));
    by vm_compute.
Defined.

Lemma best_of_side_order_witness :
  token zkp_buy = ZKP /\ side zkp_buy = BUY /\
  fgt (collateral zkp_buy) fzero = true.
Proof.
  destruct (@best_of_side_order ascii_only example_tokens market_a ZKP
              (utf8 "buy") BUY zkp_buy ltac:(by vm_compute))
    as (Ht & Hs & _ & _ & Hc & _).
  by repeat split.
Defined.

Lemma best_of_side_dominates_witness :
  fle (price (tea_buy (Prim2SF 100))) (price tea_high_bid) = true.
Proof.
  exact (@best_of_side_dominates ascii_only example_tokens market_two_bids TEA
           (utf8 "buy") BUY tea_high_bid
           (PList [ raw_order 1 (PStr (utf8 "1.0")) (PInt 100);
                    raw_order 3 (PStr (utf8 "2.5")) (PInt 10) ])
           [ raw_order 1 (PStr (utf8 "1.0")) (PInt 100);
             raw_order 3 (PStr (utf8 "2.5")) (PInt 10) ]
           ltac:(by vm_compute) ltac:(by vm_compute) ltac:(by vm_compute)
           (raw_order 1 (PStr (utf8 "1.0")) (PInt 100)) (tea_buy (Prim2SF 100))
           ltac:(left) ltac:(by vm_compute) ltac:(by vm_compute)).
Defined.

Lemma subscript_price_not_negative_witness :
  exists f,
    @parse_special_price ascii_only (PStr (utf8 "0.0₃78")) = Ok f /\
    is_nan f = false /\ fgt fzero f = false.
Proof.
  apply (@subscript_price_not_negative ascii_only 3 (utf8 "78") []);
    [lia|done|done|done].
Defined.

(** In a market that answers with [null] the pass ends in the handler with
    a [TypeError], the snapshots of the first cycle untouched and nothing
    printed or sent. *)
Lemma null_pass_handled :
  null_pass = Handled (pass_state null_pass) [] TypeError /\
  previous_orders (pass_state null_pass) = previous_orders (state_after first_cycle).
Proof. by vm_compute. Qed.



Lemma telegram_is_batch_message_witness :
  first_alert =
  message_header
  ++ flat_map (fun order => match order with
                            | Some order => order_block example_tokens order
                            | None => []
                            end) (batch_of first_cycle).
Proof.
  destruct (@telegram_is_batch_message ascii_only _ _ _ _ _ _ first_cycle_completed)
    as [Hmsg _].
  apply Hmsg. apply list_elem_of_lookup. exists 17%nat. by vm_compute.
Defined.

Lemma disappearance_only_alert_witness :
  batch_of zkp_gone_cycle = [None] /\
  Telegram message_header ∈ outputs_of zkp_gone_cycle.
Proof.
  assert (Hbatch : batch_of zkp_gone_cycle = [None]) by (by vm_compute).
  split; [done|].
  apply (@disappearance_only_alert ascii_only _ _ _ _ _ _ zkp_gone_cycle_completed).
  - by rewrite Hbatch.
  - rewrite Hbatch. by intros x ->%list_elem_of_singleton.
Defined.

Lemma steady_market_is_quiet_witness :
  batch_of steady_cycle = [] /\ outputs_of steady_cycle = [].
Proof.
  destruct (@steady_market_is_quiet ascii_only _ _ _ _ _ _ _ _ _ _
              first_cycle_completed steady_cycle_completed)
    as (Hb & Ho & _); [done|].
  by split.
Defined.

Lemma parse_special_price_agrees_with_float_witness :
  @parse_special_price ascii_only (PStr (utf8 " 1_000.5e-1 ")) = Ok (decimal_float false 10005 (-2)).
Proof.
  apply (@parse_special_price_agrees_with_float ascii_only); by vm_compute.
Defined.

(** In the second cycle of the example the collateral of the TEA order has
    changed: the order is in the batch and its block is in the alert. *)
Lemma changed_side_alerted_witness :
  Some (tea_buy (Prim2SF 150)) ∈ batch_of second_cycle /\
  exists msg,
    Telegram msg ∈ outputs_of second_cycle /\
    infix_of (utf8 "🍵 🟢 <b>TEA BUY</b>" ++ [10]
              ++ utf8 "💰 Price: $1.000000" ++ [10]
              ++ utf8 "📦 Amount: 150 tokens" ++ [10]
              ++ utf8 "💵 Collateral: $150" ++ [10]
              ++ separator_line ++ [10]) msg.
Proof.
  destruct (@changed_side_alerted ascii_only _ _ _ _ _ _ TEA second_cycle_completed)
    as [Hbuy _]; [by vm_compute; left|].
  destruct Hbuy as (Hbatch & msg & Hmsg & _ & Hblock); [by vm_compute|].
  split; [exact Hbatch|]. exists msg. split; [done|].
  assert (Hbest : @best_buy_of ascii_only example_tokens market_b TEA
                  = Some (tea_buy (Prim2SF 150))) by (by vm_compute).
  rewrite Hbest in Hblock. vm_compute in Hblock. vm_compute. exact Hblock.
Defined.

(** After the first cycle of the example the ZKP order is gone: the differ
    reports the change of the BUY side, the current best of that side is
    [None], the batch of the cycle is that [None] alone, and the one message
    handed to the alert sink is the header, with no block. *)
Lemma disappearance_sends_no_block :
  has_order_changed (@best_buy_of ascii_only example_tokens market_zkp_gone ZKP)
    (snapshot_get (previous_orders (state_after first_cycle)) ZKP buy) = true /\
  @best_buy_of ascii_only example_tokens market_zkp_gone ZKP = None /\
  zkp_gone_cycle
  = Completed (state_after zkp_gone_cycle) [None] (outputs_of zkp_gone_cycle) /\
  Telegram message_header ∈ outputs_of zkp_gone_cycle /\
  (forall msg, Telegram msg ∈ outputs_of zkp_gone_cycle -> msg = message_header).
Proof.
  split; [by vm_compute|]. split; [by vm_compute|]. split; [by vm_compute|].
  split.
  - vm_compute. by repeat constructor.
  - intros msg H. vm_compute in H.
    repeat (apply elem_of_cons in H as [H|H];
            [try discriminate H; injection H as ->; by vm_compute|]).
    by apply elem_of_nil in H.
Qed.
